(** * Finanzen: the API access layer of the dashboard and the startup script

    A shallow embedding of [frontend/src/services/apiService.js] (the class
    [SAPApiService] with its five asynchronous operations) and of the Azure
    startup script, followed by the properties of the specification that
    concern them.

    Layout: the JavaScript values the layer handles and their string
    conversion; the platform the layer runs on ([fetch], [Response.json],
    [console.error]) as a small state-and-exception monad over a world that
    records every request put on the wire; the five operations, written
    after the source; the startup script; then the theorems. *)

From Stdlib Require Import String Ascii List ZArith Bool Lia.
From Stdlib Require Import DecimalFacts DecimalPos DecimalString.
Import ListNotations.

Local Open Scope string_scope.
Local Open Scope Z_scope.

(* ===================================================================== *)
(** * JavaScript values                                                   *)
(* ===================================================================== *)

Module Js.

(** What is thrown and caught: an Error object, of which the name and the
    message are kept.  Every fault of this development is one: the
    TypeErrors of the language itself, and what [fetch] and
    [Response.json] reject with. *)
Record Fault : Type := mkFault {
  fault_name : string;
  fault_message : string
}.

(** How a piece of code completes: normally with a value, or abruptly
    with a thrown fault.  The promise of an async function is fulfilled
    in the first case and rejected in the second. *)
Inductive Completion (A : Type) : Type :=
| Normal (a : A)
| Throw (e : Fault).

Arguments Normal {A} a.
Arguments Throw {A} e.

(** One expression after another, the second using the value of the
    first; a throw of the first ends both. *)
Definition and_then {A B : Type} (c : Completion A) (k : A -> Completion B)
  : Completion B :=
  match c with
  | Normal a => k a
  | Throw e => Throw e
  end.

(** A Number.  ECMA-262 (Number::toString) prints a finite non-zero number
    from its sign and the unique triple (k, s, n) with [s] an integer of
    [k] decimal digits, not divisible by ten, and value [s * 10^(n-k)]
    (for a double: the shortest digit string that reads back to it).  A
    finite number is kept here as that sign, [s] and [n]; both zeros print
    alike and are one value. *)
Inductive JsNumber : Type :=
| NaN
| Infinity (negative : bool)
| Zero
| Finite (negative : bool) (s : positive) (n : Z).

#[local] Set Warnings "-register-all".

(** Values: [undefined], [null], booleans, Numbers, strings, symbols, and
    the arrays and plain objects built from them.  An object is a plain
    one: its own properties, with distinct keys, and Object.prototype
    behind them; an array has its elements and Array.prototype.  There
    are no functions among the values, so no property of an object is
    callable. *)
Inductive JsValue : Type :=
| JUndefined
| JNull
| JBool (b : bool)
| JNumber (x : JsNumber)
| JString (s : string)
| JSymbol (description : string)
| JArray (elems : list JsValue)
| JObject (props : list (string * JsValue)).

(** Decimal digits of a positive integer, most significant first. *)
Definition digits (s : positive) : string :=
  NilZero.string_of_uint (Pos.to_uint s).

Definition decimal (z : Z) : string :=
  NilZero.string_of_int (Z.to_int z).

Fixpoint zeros (count : nat) : string :=
  match count with
  | O => ""
  | S c => String "0" (zeros c)
  end.

(** The last digit of [10 * q + r]. *)
Definition last_digit (r : N) : string :=
  match r with
  | 0 => "0" | 1 => "1" | 2 => "2" | 3 => "3" | 4 => "4"
  | 5 => "5" | 6 => "6" | 7 => "7" | 8 => "8" | _ => "9"
  end%N.

(** Number::toString(x, 10), steps 1 to 10 of ECMA-262 6.1.6.1.20. *)
Definition Number_toString (x : JsNumber) : string :=
  match x with
  | NaN => "NaN"
  | Zero => "0"
  | Infinity negative => (if negative then "-" else "") ++ "Infinity"
  | Finite negative s n =>
      let sign := if negative then "-" else "" in
      let ds := digits s in
      let k := Z.of_nat (String.length ds) in
      sign ++
      (if (k <=? n) && (n <=? 21) then
         ds ++ zeros (Z.to_nat (n - k))
       else if (0 <? n) && (n <=? 21) then
         substring 0 (Z.to_nat n) ds ++ "." ++
         substring (Z.to_nat n) (Z.to_nat (k - n)) ds
       else if (-6 <? n) && (n <=? 0) then
         "0." ++ zeros (Z.to_nat (- n)) ++ ds
       else
         let e := n - 1 in
         let exponent := (if 0 <=? e then "+" else "-") ++ decimal (Z.abs e) in
         if k =? 1 then ds ++ "e" ++ exponent
         else substring 0 1 ds ++ "." ++
              substring 1 (Z.to_nat (k - 1)) ds ++ "e" ++ exponent)
  end.

(** An integer without its trailing zeros. *)
Fixpoint strip_zeros (fuel : nat) (p : positive) : positive :=
  match fuel with
  | O => p
  | S f =>
      if (Z.pos p mod 10 =? 0) && (1 <? Z.pos p)
      then strip_zeros f (Z.to_pos (Z.pos p / 10))
      else p
  end.

(** The Number of an integer that a double holds exactly and that no
    shorter numeral reads back to: [s] is the integer without its
    trailing zeros, [n] the number of its digits. *)
Definition number_of_positive (negative : bool) (p : positive) : JsNumber :=
  Finite negative (strip_zeros (Pos.size_nat p) p)
         (Z.of_nat (String.length (digits p))).

(** The double nearest to a positive integer, ties to the even
    significand, as the integer it is; nothing where the integer is
    beyond the doubles and reads as Infinity. *)
Definition nearest_double (v : Z) : option Z :=
  let bits := Z.log2 v + 1 in
  if bits <=? 53 then Some v
  else
    let e := bits - 53 in
    let q := v / 2 ^ e in
    let r := v mod 2 ^ e in
    let half := 2 ^ (e - 1) in
    let m := if (half <? r) || ((r =? half) && Z.odd q) then q + 1 else q in
    if 2 ^ 1024 <=? m * 2 ^ e then None else Some (m * 2 ^ e).

(** The numerals [s * 10^(n-k)] of [k] digits next to the double [d] that
    read back to [d], each with its distance from [d]. *)
Definition numerals (d : Z) (k n : Z) : list (Z * (Z * Z)) :=
  if n - k <? 0 then []
  else
    let unit := 10 ^ (n - k) in
    filter (fun c =>
              let s := snd (snd c) in
              (10 ^ (k - 1) <=? s) && (s <? 10 ^ k) &&
              match nearest_double (s * unit) with
              | Some d' => d' =? d
              | None => false
              end)
           [(Z.abs (d / unit * unit - d), (n, d / unit));
            (Z.abs ((d / unit + 1) * unit - d), (n, d / unit + 1))].

(** The nearest of them, the even one of two equally near. *)
Fixpoint nearest (best : Z * (Z * Z)) (rest : list (Z * (Z * Z)))
  : Z * (Z * Z) :=
  match rest with
  | [] => best
  | c :: rest' =>
      if (fst c <? fst best) ||
         ((fst c =? fst best) && Z.even (snd (snd c)))
      then nearest c rest'
      else nearest best rest'
  end.

(** The shortest numeral of a double [d] of [size] digits: the least [k]
    for which there is one. *)
Fixpoint shortest (fuel : nat) (d size k : Z) : option (Z * Z) :=
  match fuel with
  | O => None
  | S f =>
      match (numerals d k size ++ numerals d k (size + 1))%list with
      | [] => shortest f d size (k + 1)
      | c :: rest => Some (snd (nearest c rest))
      end
  end.

(** The Number that an integer is as a Number: the integer itself up to
    2^53, beyond that the nearest double. *)
Definition number_of_magnitude (negative : bool) (p : positive) : JsNumber :=
  if Z.pos p <? 2 ^ 53 then number_of_positive negative p
  else
    match nearest_double (Z.pos p) with
    | None => Infinity negative
    | Some d =>
        match shortest 17 d
                       (Z.of_nat (String.length (digits (Z.to_pos d)))) 1 with
        | Some (n, s) => Finite negative (Z.to_pos s) n
        | None => NaN
        end
    end.

Definition number_of_Z (z : Z) : JsNumber :=
  match z with
  | Z0 => Zero
  | Zpos p => number_of_magnitude false p
  | Zneg p => number_of_magnitude true p
  end.

Definition join (sep : string) (parts : list string) : string :=
  String.concat sep parts.

Definition has_own (props : list (string * JsValue)) (key : string) : bool :=
  existsb (fun p => String.eqb (fst p) key) props.

(** The TypeErrors of a conversion to a string, worded as V8 words
    them. *)
Definition symbol_to_string : Fault :=
  mkFault "TypeError" "Cannot convert a Symbol value to a string".

Definition object_to_primitive : Fault :=
  mkFault "TypeError" "Cannot convert object to primitive value".

(** ToString (ECMA-262 7.1.17).  A symbol throws.  An array is joined
    with commas by Array.prototype.join, where [null] and [undefined]
    elements give the empty string and the others are converted in turn.
    A plain object gives "[object Object]" through Object.prototype; one
    with an own property [toString], which is not callable and hides
    that, has nothing that converts it, and throws. *)
Fixpoint ToString (v : JsValue) : Completion string :=
  match v with
  | JUndefined => Normal "undefined"
  | JNull => Normal "null"
  | JBool b => Normal (if b then "true" else "false")
  | JNumber x => Normal (Number_toString x)
  | JString s => Normal s
  | JSymbol _ => Throw symbol_to_string
  | JArray elems =>
      and_then
        ((fix each (l : list JsValue) : Completion (list string) :=
            match l with
            | [] => Normal []
            | e :: rest =>
                and_then (match e with
                          | JUndefined | JNull => Normal ""
                          | _ => ToString e
                          end)
                         (fun text =>
                and_then (each rest) (fun texts => Normal (text :: texts)))
            end) elems)
        (fun texts => Normal (join "," texts))
  | JObject props =>
      if has_own props "toString" then Throw object_to_primitive
      else Normal "[object Object]"
  end.

(** A template literal with one substitution: [`${v}`] after [prefix]. *)
Definition template (prefix : string) (v : JsValue) : Completion string :=
  and_then (ToString v) (fun text => Normal (prefix ++ text)).

(** A parameter with a default value, [f(p = d)]: the default is taken
    when the argument is missing or is [undefined]. *)
Definition argument (args : list JsValue) (i : nat) : JsValue :=
  nth i args JUndefined.

Definition or_default (v d : JsValue) : JsValue :=
  match v with
  | JUndefined => d
  | _ => v
  end.

End Js.
Import Js.

(* ===================================================================== *)
(** * The platform: faults, the network, the console                      *)
(* ===================================================================== *)

Module Platform.

(** What [fetch] and [Response.json] reject with is a [Fault]: by the
    Fetch standard [fetch], called without an abort signal as it is
    throughout this repository, rejects with a TypeError only, and [json]
    with a TypeError or a SyntaxError, all Error objects, whose [message]
    is a string. *)

(** The second argument of [fetch], each member optional. *)
Record RequestInit : Type := mkInit {
  init_method : option string;
  init_headers : list (string * string);
  init_body : option string
}.

Definition no_init : RequestInit := mkInit None [] None.

(** A request as the caller of [fetch] determines it. *)
Record Request : Type := mkRequest {
  req_method : string;
  req_url : string;
  req_headers : list (string * string);
  req_body : option string
}.

(** A delivered response: its HTTP status, and what reading its body
    with [json()] settles to. *)
Record Response : Type := mkResponse {
  resp_status : Z;
  resp_json : Fault + JsValue
}.

(** [Response.ok]: the status is in the range 200 to 299. *)
Definition resp_ok (r : Response) : bool :=
  (200 <=? resp_status r) && (resp_status r <=? 299).

Inductive FetchOutcome : Type :=
| Rejected (e : Fault)
| Resolved (r : Response).

(** The remote side: its answer to a request may depend on every request
    it has received before. *)
Definition Network : Type := list Request -> Request -> FetchOutcome.

Record ConsoleEntry : Type := mkEntry {
  entry_label : string;
  entry_error : Fault
}.

(** The world outside the layer.  [wire] and [console] list what has been
    sent and logged so far, oldest first. *)
Record World : Type := mkWorld {
  network : Network;
  wire : list Request;
  console : list ConsoleEntry
}.

(** Code that runs in the world.  Effects made before a throw stay. *)
Definition Async (A : Type) : Type := World -> Completion A * World.

Definition ret {A : Type} (a : A) : Async A :=
  fun w => (Normal a, w).

Definition bind {A B : Type} (c : Async A) (k : A -> Async B) : Async B :=
  fun w =>
    match c w with
    | (Normal a, w') => k a w'
    | (Throw e, w') => (Throw e, w')
    end.

(** An expression that may throw. *)
Definition eval {A : Type} (c : Completion A) : Async A :=
  fun w => (c, w).

(** [try { body } catch (error) { handler }] *)
Definition try_catch {A : Type} (body : Async A) (handler : Fault -> Async A)
  : Async A :=
  fun w =>
    match body w with
    | (Normal a, w') => (Normal a, w')
    | (Throw e, w') => handler e w'
    end.

Declare Scope async_scope.
Delimit Scope async_scope with async.
Notation "'await' x <- c ;; k" := (bind c (fun x => k))
  (at level 61, x name, c at next level, right associativity) : async_scope.
Notation "c ;; k" := (bind c (fun _ => k))
  (at level 61, right associativity) : async_scope.
Notation "'try' body 'catch' e => handler" :=
  (try_catch body (fun e => handler))
  (at level 62, e name, body at level 61, handler at level 61) : async_scope.

Definition make_request (url : string) (init : RequestInit) : Request :=
  mkRequest (match init_method init with
             | Some m => m
             | None => "GET"
             end)
            url (init_headers init) (init_body init).

(** [fetch(url, init)]: one request goes on the wire; the network decides
    whether the promise is rejected or resolved with a response. *)
Definition fetch (url : string) (init : RequestInit) : Async Response :=
  fun w =>
    let req := make_request url init in
    let w' := mkWorld (network w) (wire w ++ [req]) (console w) in
    match network w (wire w) req with
    | Rejected e => (Throw e, w')
    | Resolved r => (Normal r, w')
    end.

(** [response.json()] *)
Definition json (response : Response) : Async JsValue :=
  fun w =>
    match resp_json response with
    | inl e => (Throw e, w)
    | inr v => (Normal v, w)
    end.

(** [console.error(label, error)] *)
Definition console_error (label : string) (error : Fault) : Async unit :=
  fun w =>
    (Normal tt,
     mkWorld (network w) (wire w) (console w ++ [mkEntry label error])).

End Platform.

Import Platform.
Local Open Scope async_scope.

(* ===================================================================== *)
(** * services/apiService.js                                              *)
(* ===================================================================== *)

Module SAPApiService.

Definition API_BASE : string :=
  "https://app-sap-integration-api-h7hwc9fwaugghnce.germanywestcentral-01.azurewebsites.net".

(** Each method takes the list of the arguments it is called with. *)

Definition getHealth (_ : list JsValue) : Async JsValue :=
  try
    (await response <- fetch (API_BASE ++ "/api/health") no_init ;;
     json response)
  catch error =>
    (console_error "Health check failed:" error ;;
     ret (JObject [("status", JString "error");
                   ("message", JString (fault_message error))])).

Definition getTransactions (args : list JsValue) : Async JsValue :=
  let limit := or_default (argument args 0) (JNumber (number_of_Z 100)) in
  try
    (await url <-
       eval (template (API_BASE ++ "/api/transactions-raw?limit=") limit) ;;
     await response <- fetch url no_init ;;
     json response)
  catch error =>
    (console_error "Get transactions failed:" error ;;
     ret (JObject [("transactions", JArray []);
                   ("error", JString (fault_message error))])).

Definition getDatabaseStatus (_ : list JsValue) : Async JsValue :=
  try
    (await response <- fetch (API_BASE ++ "/api/database-test") no_init ;;
     json response)
  catch error =>
    (console_error "Database status failed:" error ;;
     ret (JObject [("connection_test", JBool false);
                   ("error", JString (fault_message error))])).

Definition triggerProcessing (_ : list JsValue) : Async JsValue :=
  try
    (await response <-
       fetch (API_BASE ++ "/api/process")
             (mkInit (Some "POST")
                     [("Content-Type", "application/json")]
                     None) ;;
     json response)
  catch error =>
    (console_error "Trigger processing failed:" error ;;
     ret (JObject [("status", JString "error");
                   ("message", JString (fault_message error))])).

Definition getEnvironment (_ : list JsValue) : Async JsValue :=
  try
    (await response <- fetch (API_BASE ++ "/api/environment") no_init ;;
     json response)
  catch error =>
    (console_error "Get environment failed:" error ;;
     ret (JObject [("error", JString (fault_message error))])).

(** The five methods of the exported instance. *)
Inductive Method : Type :=
| GetHealth
| GetTransactions
| GetDatabaseStatus
| TriggerProcessing
| GetEnvironment.

Definition call (m : Method) (args : list JsValue) : Async JsValue :=
  match m with
  | GetHealth => getHealth args
  | GetTransactions => getTransactions args
  | GetDatabaseStatus => getDatabaseStatus args
  | TriggerProcessing => triggerProcessing args
  | GetEnvironment => getEnvironment args
  end.

End SAPApiService.

Import SAPApiService.

(** What the network answers, in world [w], to a request made now. *)
Definition answer (w : World) (req : Request) : FetchOutcome :=
  network w (wire w) req.

(** A run of calls one after the other, each awaited before the next;
    the world they leave behind. *)
Fixpoint after (calls : list (Method * list JsValue)) (w : World) : World :=
  match calls with
  | [] => w
  | (m, args) :: rest => after rest (snd (call m args w))
  end.

(* ===================================================================== *)
(** * The startup script                                                  *)
(* ===================================================================== *)

Module Startup.

(** The machine the script starts on.  Paths are absolute and, but for
    the root, do not end in a slash.  [matching cwd pattern] is what the
    file system gives for a pattern of pathname expansion in [cwd]: the
    names that match, in order. *)
Record Host : Type := mkHost {
  env_PYTHONPATH : option string;
  env_WEBSITES_PORT : option string;
  start_directory : string;
  directories : list string;
  regular_files : list string;
  python3_version : string;
  ls_la : string -> string;
  matching : string -> string -> list string
}.

(** How the script ends: [exit status], or [exec] of a command line, which
    puts that program in the place of the shell. *)
Inductive Outcome : Type :=
| Exit (status : Z)
| Exec (argv : list string).

Record Run : Type := mkRun {
  stdout : list string;
  PYTHONPATH : string;
  WEBSITES_PORT : string;
  outcome : Outcome
}.

(** [${v}] *)
Definition expand (v : option string) : string :=
  match v with
  | Some s => s
  | None => ""
  end.

(** [${v:-d}]: [d] when [v] is unset or empty. *)
Definition expand_default (v : option string) (d : string) : string :=
  match v with
  | Some s => if String.eqb s "" then d else s
  | None => d
  end.

(** [cd target]: the script goes on in the old directory when it fails
    (no [set -e]). *)
Definition cd (h : Host) (cwd target : string) : string :=
  if existsb (String.eqb target) (directories h) then target else cwd.

(** A name in a directory. *)
Definition path (cwd name : string) : string :=
  if String.eqb cwd "/" then "/" ++ name else cwd ++ "/" ++ name.

(** [[ -f name ]] for a relative [name]. *)
Definition is_file (h : Host) (cwd name : string) : bool :=
  existsb (String.eqb (path cwd name)) (regular_files h).

Definition app_directory : string := "/home/site/wwwroot".

(** The characters of the default IFS: space, tab, newline. *)
Definition blank (c : ascii) : bool :=
  Ascii.eqb c " " || Ascii.eqb c "009" || Ascii.eqb c "010".

(** The characters that make a word a pattern: star, question mark, left
    bracket. *)
Definition pattern_character (c : ascii) : bool :=
  Ascii.eqb c "*" || Ascii.eqb c "?" || Ascii.eqb c "[".

Fixpoint any (test : ascii -> bool) (s : string) : bool :=
  match s with
  | EmptyString => false
  | String c rest => test c || any test rest
  end.

(** Field splitting of the text of an unquoted expansion.  [word] is the
    field being read, with what stands before the expansion in the same
    word at its start; [begun] tells whether that field has begun (it has
    where something stands before the expansion).  Blanks end a field
    that has begun and are dropped otherwise. *)
Fixpoint split (text : string) (word : string) (begun : bool)
  : list string :=
  match text with
  | EmptyString => if begun then [word] else []
  | String c rest =>
      if blank c then
        if begun then word :: split rest "" false else split rest "" false
      else split rest (word ++ String c "") true
  end.

(** Pathname expansion of a field: a field with a pattern character is
    replaced by the names that match it, where there are any. *)
Definition pathnames (h : Host) (cwd field : string) : list string :=
  if any pattern_character field then
    match matching h cwd field with
    | [] => [field]
    | names => names
    end
  else [field].

(** The words that [prefix$variable], unquoted, leaves on a command
    line, [value] being the value of the variable. *)
Definition unquoted (h : Host) (cwd prefix value : string) : list string :=
  flat_map (pathnames h cwd) (split value prefix true).

(** A value with no blank and no pattern character in it: one word,
    quoted or not. *)
Definition plain (value : string) : bool :=
  negb (any (fun c => blank c || pattern_character c) value).

(** The command line of lines 42 to 51, [bind] being the words of its
    second line. *)
Definition gunicorn (bind : list string) : list string :=
  app ("gunicorn" :: bind)
      ["--timeout"; "600";
       "--workers"; "1";
       "--worker-class"; "sync";
       "--preload";
       "--access-logfile"; "-";
       "--error-logfile"; "-";
       "--log-level"; "info";
       "app:app"].

(** [echo line] after what has been printed so far. *)
Definition echo (printed : list string) (line : string) : list string :=
  app printed [line].

(** The script, statement by statement.  [pip3 install], whose status the
    script does not look at, leaves everything modelled here as it is. *)
Definition startup (h : Host) : Run :=
  let out := echo [] "🚀 Starting SAP Integration API..." in
  let pythonpath := expand (env_PYTHONPATH h) ++ ":/home/site/wwwroot" in
  let port := expand_default (env_WEBSITES_PORT h) "8000" in
  let cwd := cd h (start_directory h) "/home/site/wwwroot" in
  let out := echo out ("📍 Current directory: " ++ cwd) in
  let out := echo out ("🐍 Python version: " ++ python3_version h) in
  let out := echo out ("📂 Available files: " ++ ls_la h cwd) in
  if negb (is_file h cwd "app.py") then
    mkRun (echo out "❌ app.py not found!") pythonpath port (Exit 1)
  else if negb (is_file h cwd "requirements.txt") then
    mkRun (echo out "❌ requirements.txt not found!") pythonpath port (Exit 1)
  else
    let out := echo out "📦 Checking dependencies..." in
    let out :=
      if is_file h cwd "msp_sap_integration_fixed.py"
      then echo out "✅ Processing logic found: msp_sap_integration_fixed.py"
      else echo out "⚠️  Processing logic not found in current directory" in
    let out :=
      echo out ("🌐 Starting Gunicorn server on port " ++ port ++ "...") in
    mkRun out pythonpath port
          (Exec (gunicorn (unquoted h cwd "--bind=0.0.0.0:" port))).

End Startup.

(* ===================================================================== *)
(** * What the specification documents                                    *)
(* ===================================================================== *)

Module Spec.

(** The failure fallback of each operation, after the table of section
    4.1 of the specification. *)
Definition fallback (m : Method) (description : string) : JsValue :=
  match m with
  | GetHealth | TriggerProcessing =>
      JObject [("status", JString "error"); ("message", JString description)]
  | GetTransactions =>
      JObject [("transactions", JArray []); ("error", JString description)]
  | GetDatabaseStatus =>
      JObject [("connection_test", JBool false);
               ("error", JString description)]
  | GetEnvironment =>
      JObject [("error", JString description)]
  end.

(** The endpoint of each operation, after section 6: an HTTP method and a
    path, [limit] standing for the <N> of the transaction listing. *)
Definition endpoint (m : Method) (limit : string) : string * string :=
  match m with
  | GetHealth => ("GET", "/api/health")
  | GetTransactions => ("GET", "/api/transactions-raw?limit=" ++ limit)
  | GetDatabaseStatus => ("GET", "/api/database-test")
  | TriggerProcessing => ("POST", "/api/process")
  | GetEnvironment => ("GET", "/api/environment")
  end.

End Spec.

(** The limit a call of [getTransactions] works with, and the text it
    has in the address, where it has one: the <N> of the endpoint. *)
Definition limit_of (args : list JsValue) : JsValue :=
  or_default (argument args 0) (JNumber (number_of_Z 100)).

Definition limit_text (args : list JsValue) : Completion string :=
  ToString (limit_of args).

(** The one request a call of a method hands to [fetch]; a call of
    [getTransactions] whose address cannot be made throws before it has
    one. *)
Definition request_of (m : Method) (args : list JsValue)
  : Completion Request :=
  match m with
  | GetHealth => Normal (make_request (API_BASE ++ "/api/health") no_init)
  | GetTransactions =>
      and_then
        (template (API_BASE ++ "/api/transactions-raw?limit=")
                  (or_default (argument args 0) (JNumber (number_of_Z 100))))
        (fun url => Normal (make_request url no_init))
  | GetDatabaseStatus =>
      Normal (make_request (API_BASE ++ "/api/database-test") no_init)
  | TriggerProcessing =>
      Normal (make_request (API_BASE ++ "/api/process")
                           (mkInit (Some "POST")
                                   [("Content-Type", "application/json")]
                                   None))
  | GetEnvironment =>
      Normal (make_request (API_BASE ++ "/api/environment") no_init)
  end.

(** What the transport does with the request of a call made in world
    [w]; nothing where the call does not get as far as the transport. *)
Definition transport (w : World) (m : Method) (args : list JsValue)
  : option FetchOutcome :=
  match request_of m args with
  | Normal req => Some (answer w req)
  | Throw _ => None
  end.

(** The requests a call puts on the wire: its one request, or none. *)
Definition requests_of (m : Method) (args : list JsValue) : list Request :=
  match request_of m args with
  | Normal req => [req]
  | Throw _ => []
  end.

(** The shape every method has: make the address, fetch, read the body
    as JSON, and on a fault log it and return a value made from the
    fault. *)
Definition guarded (address : Completion string) (init : RequestInit)
                   (tag : string) (recover : Fault -> JsValue)
  : Async JsValue :=
  try (await url <- eval address ;;
       await response <- fetch url init ;;
       json response)
  catch error => (console_error tag error ;; ret (recover error)).

(** What a call settles to and what it logs, given the network's answer. *)
Definition settle (m : Method) (o : FetchOutcome) : JsValue :=
  match o with
  | Rejected e => Spec.fallback m (fault_message e)
  | Resolved r =>
      match resp_json r with
      | inl e => Spec.fallback m (fault_message e)
      | inr body => body
      end
  end.

Definition label (m : Method) : string :=
  match m with
  | GetHealth => "Health check failed:"
  | GetTransactions => "Get transactions failed:"
  | GetDatabaseStatus => "Database status failed:"
  | TriggerProcessing => "Trigger processing failed:"
  | GetEnvironment => "Get environment failed:"
  end.

Definition logged (m : Method) (o : FetchOutcome) : list ConsoleEntry :=
  match o with
  | Rejected e => [mkEntry (label m) e]
  | Resolved r =>
      match resp_json r with
      | inl e => [mkEntry (label m) e]
      | inr _ => []
      end
  end.

(* ===================================================================== *)
(** * Sample worlds and hosts                                             *)
(* ===================================================================== *)

Module Sample.

Definition failed_to_fetch : Fault := mkFault "TypeError" "Failed to fetch".

Definition unexpected_token : Fault :=
  mkFault "SyntaxError" "Unexpected token < in JSON at position 0".

Definition fresh (n : Network) : World := mkWorld n [] [].

(** No network at all. *)
Definition offline : World := fresh (fun _ _ => Rejected failed_to_fetch).

(** A service that answers every request with {status: "ok"}. *)
Definition status_ok : JsValue := JObject [("status", JString "ok")].

Definition healthy : World :=
  fresh (fun _ _ => Resolved (mkResponse 200 (inr status_ok))).

(** A service that answers 500 with a JSON body. *)
Definition internal_error : JsValue :=
  JObject [("error", JString "Internal Server Error")].

Definition response_500 : Response := mkResponse 500 (inr internal_error).

Definition failing : World := fresh (fun _ _ => Resolved response_500).

(** A gateway that answers 502 with an HTML page. *)
Definition response_502 : Response := mkResponse 502 (inl unexpected_token).

Definition gateway : World := fresh (fun _ _ => Resolved response_502).

(** A service that is up for its first two requests and then gone. *)
Definition flaky : World :=
  fresh (fun history _ =>
           if (length history <? 2)%nat
           then Resolved (mkResponse 200 (inr status_ok))
           else Rejected failed_to_fetch).

(** -2.5 *)
Definition minus_two_and_a_half : JsValue := JNumber (Finite true 25 1).

Definition host (port : option string) (files : list string)
  : Startup.Host :=
  Startup.mkHost None port "/" ["/"; "/home/site/wwwroot"] files
                 "Python 3.11.4" (fun _ => "total 0") (fun _ _ => []).

Definition deployed : Startup.Host :=
  host (Some "8181")
       ["/home/site/wwwroot/app.py"; "/home/site/wwwroot/requirements.txt"].

Definition incomplete : Startup.Host :=
  host None ["/home/site/wwwroot/app.py"].

End Sample.

(* ===================================================================== *)
(** * More of the language: property reads and truthiness                 *)
(* ===================================================================== *)

Module Lang.

Definition nullish (v : JsValue) : bool :=
  match v with
  | JUndefined | JNull => true
  | _ => false
  end.

(** The TypeError of reading a property of [null] or [undefined]; the
    message is the one V8 gives. *)
Definition cannot_read (v : JsValue) (key : string) : Fault :=
  mkFault "TypeError"
          ("Cannot read properties of " ++
           match v with
           | JNull => "null"
           | _ => "undefined"
           end ++
           " (reading '" ++ key ++ "')").

(** The value of an own property; the keys of an object are distinct. *)
Fixpoint lookup (props : list (string * JsValue)) (key : string) : JsValue :=
  match props with
  | [] => JUndefined
  | (k, v) :: rest => if String.eqb k key then v else lookup rest key
  end.

(** [v.key], for a [key] that no built-in prototype defines (every key
    the components read by name is such a key): a TypeError on [null] and
    [undefined], the own property of an object, [undefined] on the rest. *)
Definition get (v : JsValue) (key : string) : Completion JsValue :=
  match v with
  | JUndefined | JNull => Throw (cannot_read v key)
  | JObject props => Normal (lookup props key)
  | _ => Normal JUndefined
  end.

(** [v?.key] *)
Definition get_optional (v : JsValue) (key : string) : JsValue :=
  match v with
  | JObject props => lookup props key
  | _ => JUndefined
  end.

(** ToBoolean (ECMA-262 7.1.2). *)
Definition ToBoolean (v : JsValue) : bool :=
  match v with
  | JUndefined | JNull => false
  | JBool b => b
  | JNumber NaN | JNumber Zero => false
  | JNumber _ => true
  | JString s => negb (String.eqb s "")
  | JSymbol _ | JArray _ | JObject _ => true
  end.

(** [a || b] *)
Definition or_else (a b : JsValue) : JsValue :=
  if ToBoolean a then a else b.

(** [v === 'text'] *)
Definition is_string (v : JsValue) (text : string) : bool :=
  match v with
  | JString s => String.eqb s text
  | _ => false
  end.

End Lang.

Import Lang.

(* ===================================================================== *)
(** * Components: state, alerts and event handlers                        *)
(* ===================================================================== *)

Module Ui.

(** What a handler of a component works on: the state of the component
    (its [useState] cells), the alerts shown so far, and the world. *)
Record Browser (S : Type) : Type := mkBrowser {
  state : S;
  alerts : list string;
  outside : World
}.

Arguments mkBrowser {S} state alerts outside.
Arguments state {S} b.
Arguments alerts {S} b.
Arguments outside {S} b.

Definition Handler (S A : Type) : Type :=
  Browser S -> Completion A * Browser S.

Definition ret {S A : Type} (a : A) : Handler S A :=
  fun b => (Normal a, b).

Definition bind {S A B : Type} (c : Handler S A) (k : A -> Handler S B)
  : Handler S B :=
  fun b =>
    match c b with
    | (Normal a, b') => k a b'
    | (Throw e, b') => (Throw e, b')
    end.

(** A call into the access layer, or of [console.error]. *)
Definition lift {S A : Type} (c : Async A) : Handler S A :=
  fun b =>
    match c (outside b) with
    | (r, w) => (r, mkBrowser (state b) (alerts b) w)
    end.

(** An expression that may throw. *)
Definition eval {S A : Type} (c : Completion A) : Handler S A :=
  fun b => (c, b).

(** A call of a [useState] setter. *)
Definition set_state {S : Type} (update : S -> S) : Handler S unit :=
  fun b => (Normal tt, mkBrowser (update (state b)) (alerts b) (outside b)).

(** [alert(message)] *)
Definition alert {S : Type} (message : string) : Handler S unit :=
  fun b =>
    (Normal tt, mkBrowser (state b) (app (alerts b) [message]) (outside b)).

(** [try { body } catch (error) { handler } finally { finalizer }]: the
    finalizer runs whatever happened, and what the statement completes
    with is what the body or the handler did, unless the finalizer
    throws. *)
Definition try_catch_finally {S A : Type} (body : Handler S A)
           (handler : Fault -> Handler S A) (finalizer : Handler S unit)
  : Handler S A :=
  fun b =>
    let (c, b1) := match body b with
                   | (Normal a, b') => (Normal a, b')
                   | (Throw e, b') => handler e b'
                   end in
    match finalizer b1 with
    | (Normal _, b2) => (c, b2)
    | (Throw e, b2) => (Throw e, b2)
    end.

Declare Scope handler_scope.
Delimit Scope handler_scope with handler.
Notation "'await' x <- c ;; k" := (bind c (fun x => k))
  (at level 61, x name, c at next level, right associativity)
  : handler_scope.
Notation "c ;; k" := (bind c (fun _ => k))
  (at level 61, right associativity) : handler_scope.
Notation "'try' body 'catch' e => handler 'finally' finalizer" :=
  (try_catch_finally body (fun e => handler) finalizer)
  (at level 62, e name, body at level 61, handler at level 61,
   finalizer at level 61) : handler_scope.

(** Events handled one after the other, each to its end. *)
Fixpoint run {S E : Type} (handle : E -> Handler S unit) (events : list E)
         (b : Browser S) : Browser S :=
  match events with
  | [] => b
  | e :: rest => run handle rest (snd (handle e b))
  end.

End Ui.

(* ===================================================================== *)
(** * App.js                                                              *)
(* ===================================================================== *)

Module App.

Import Ui.
Local Open Scope handler_scope.

Record State : Type := mkState {
  healthStatus : JsValue;
  loading : bool;
  currentView : string
}.

(** [useState(null)], [useState(true)], [useState('dashboard')] *)
Definition initial : State := mkState JNull true "dashboard".

Definition setHealthStatus (v : JsValue) : Handler State unit :=
  set_state (fun s => mkState v (loading s) (currentView s)).

Definition setLoading (v : bool) : Handler State unit :=
  set_state (fun s => mkState (healthStatus s) v (currentView s)).

Definition setCurrentView (v : string) : Handler State unit :=
  set_state (fun s => mkState (healthStatus s) (loading s) v).

Definition loadInitialData : Handler State unit :=
  try
    (await health <- lift (getHealth []) ;;
     setHealthStatus health)
  catch error =>
    lift (console_error "Failed to load initial data:" error)
  finally
    setLoading false.

(** What can happen to the component: the effect that runs on mount, the
    two buttons of the navigation, and the refresh button that the health
    panel gets as [onRefresh]. *)
Inductive Event : Type :=
| Mount
| ClickDashboard
| ClickSystemHealth
| ClickRefreshHealth.

Definition handle (e : Event) : Handler State unit :=
  match e with
  | Mount => loadInitialData
  | ClickDashboard => setCurrentView "dashboard"
  | ClickSystemHealth => setCurrentView "health"
  | ClickRefreshHealth => loadInitialData
  end.

(** What the component returns: the loading screen, or the page with the
    class of each navigation button and the panels, each with the
    [healthStatus] it is given when it is shown. *)
Inductive Screen : Type :=
| LoadingScreen
| Page (dashboard_button health_button : string)
       (dashboard_panel health_panel : option JsValue).

Definition render (s : State) : Screen :=
  if loading s then LoadingScreen
  else
    Page (if String.eqb (currentView s) "dashboard" then "active" else "")
         (if String.eqb (currentView s) "health" then "active" else "")
         (if String.eqb (currentView s) "dashboard"
          then Some (healthStatus s) else None)
         (if String.eqb (currentView s) "health"
          then Some (healthStatus s) else None).

End App.

(* ===================================================================== *)
(** * components/Dashboard.jsx                                            *)
(* ===================================================================== *)

Module Dashboard.

Import Ui.
Local Open Scope handler_scope.

Record State : Type := mkState {
  transactions : JsValue;
  loading : bool;
  processing : bool
}.

(** [useState([])], [useState(true)], [useState(false)] *)
Definition initial : State := mkState (JArray []) true false.

Definition setTransactions (v : JsValue) : Handler State unit :=
  set_state (fun s => mkState v (loading s) (processing s)).

Definition setLoading (v : bool) : Handler State unit :=
  set_state (fun s => mkState (transactions s) v (processing s)).

Definition setProcessing (v : bool) : Handler State unit :=
  set_state (fun s => mkState (transactions s) (loading s) v).

Definition loadTransactions : Handler State unit :=
  try
    (setLoading true ;;
     await data <- lift (getTransactions [JNumber (number_of_Z 10)]) ;;
     await found <- eval (get data "transactions") ;;
     setTransactions (or_else found (JArray [])))
  catch error =>
    lift (console_error "Failed to load transactions:" error)
  finally
    setLoading false.

Definition handleTriggerProcessing : Handler State unit :=
  try
    (setProcessing true ;;
     await result <- lift (triggerProcessing []) ;;
     await status <- eval (get result "status") ;;
     if is_string status "success" then
       alert "Processing completed successfully!" ;;
       loadTransactions
     else
       await message <- eval (get result "message") ;;
       await text <- eval (template "Processing failed: " message) ;;
       alert text)
  catch error =>
    alert ("Processing error: " ++ fault_message error)
  finally
    setProcessing false.

Inductive Event : Type :=
| Mount
| ClickRefresh
| ClickTriggerProcessing.

Definition handle (e : Event) : Handler State unit :=
  match e with
  | Mount => loadTransactions
  | ClickRefresh => loadTransactions
  | ClickTriggerProcessing => handleTriggerProcessing
  end.

(** The quick stats, from the [healthStatus] the component is given: for
    each card the class and the content that the JSX computes. *)
Record Stats : Type := mkStats {
  api_status_class : string;
  api_status : JsValue;
  database_class : string;
  database : string;
  total_transactions : JsValue;
  processing_class : string;
  processing_state : string
}.

Definition stats (healthStatus : JsValue) : Completion Stats :=
  let connected :=
    ToBoolean (get_optional (get_optional healthStatus "database")
                            "connected") in
  let available :=
    ToBoolean (get_optional (get_optional healthStatus "processing")
                            "available") in
  and_then (template "status " (get_optional healthStatus "status"))
    (fun status_class =>
       Normal
         (mkStats
            status_class
            (or_else (get_optional healthStatus "status") (JString "Unknown"))
            (if connected then "connected" else "disconnected")
            (if connected then "✅ Connected" else "❌ Disconnected")
            (or_else (get_optional (get_optional healthStatus "data")
                                   "total_transactions")
                     (JNumber Zero))
            (if available then "available" else "unavailable")
            (if available then "✅ Available" else "❌ Unavailable"))).

(** The button that triggers processing: [disabled] and its label. *)
Definition process_button (s : State) : bool * string :=
  (processing s,
   if processing s then "⏳ Processing..." else "🔄 Trigger Processing").

End Dashboard.

(* ===================================================================== *)
(** * components/HealthStatus.jsx                                         *)
(* ===================================================================== *)

Module HealthStatus.

Import Ui.
Local Open Scope handler_scope.

Record State : Type := mkState {
  dbStatus : JsValue;
  loading : bool
}.

(** [useState(null)], [useState(false)] *)
Definition initial : State := mkState JNull false.

Definition setDbStatus (v : JsValue) : Handler State unit :=
  set_state (fun s => mkState v (loading s)).

Definition setLoading (v : bool) : Handler State unit :=
  set_state (fun s => mkState (dbStatus s) v).

Definition checkDatabaseStatus : Handler State unit :=
  try
    (setLoading true ;;
     await status <- lift (getDatabaseStatus []) ;;
     setDbStatus status)
  catch error =>
    lift (console_error "Database check failed:" error)
  finally
    setLoading false.

(** The button of the database section (lines 66 to 72): whether it is
    disabled, and its label. *)
Definition test_button (s : State) : bool * string :=
  (loading s, if loading s then "⏳ Testing..." else "🔬 Test Database").

(** The block under the button (lines 75 to 89), there when [dbStatus] is
    truthy: the class and the text of the connection test, and the
    manager type. *)
Definition connection_block (s : State)
  : Completion (option (string * string * JsValue)) :=
  if ToBoolean (dbStatus s) then
    and_then (get (dbStatus s) "connection_test") (fun test =>
    and_then (template "value "
                (JString (if ToBoolean test
                          then "connected" else "disconnected")))
             (fun test_class =>
    and_then (get (dbStatus s) "database_manager_type") (fun manager =>
    Normal (Some (test_class,
                  if ToBoolean test then "✅ Success" else "❌ Failed",
                  or_else manager (JString "Unknown"))))))
  else Normal None.

(** The guard of the list of tables (line 91): the list is rendered when
    this is truthy, and not otherwise. *)
Definition tables_guard (s : State) : bool :=
  ToBoolean (get_optional (dbStatus s) "tables").

End HealthStatus.

(* ===================================================================== *)
(** * Sample pages                                                        *)
(* ===================================================================== *)

Module Scene.

(** The arguments of [apiService.getTransactions(10)]. *)
Definition ten : list JsValue := [JNumber (number_of_Z 10)].

(** The request of that call, and the one of [triggerProcessing()]. *)
Definition listing : Request :=
  mkRequest "GET" (API_BASE ++ "/api/transactions-raw?limit=10") [] None.

Definition processing : Request :=
  mkRequest "POST" (API_BASE ++ "/api/process")
            [("Content-Type", "application/json")] None.

(** The requests of [getHealth()] and [getDatabaseStatus()]. *)
Definition health_check : Request :=
  mkRequest "GET" (API_BASE ++ "/api/health") [] None.

Definition database_test : Request :=
  mkRequest "GET" (API_BASE ++ "/api/database-test") [] None.

(** A service that answers every request with the JSON text [null]. *)
Definition null_body : World :=
  Sample.fresh (fun _ _ => Resolved (mkResponse 200 (inr JNull))).

Definition booking : JsValue :=
  JObject [("transaction_id", JString "T-1");
           ("amount", JString "12.50");
           ("category", JString "DIRECT_COST")].

(** A service whose processing succeeds and which then lists one
    transaction. *)
Definition processed : World :=
  Sample.fresh
    (fun _ req =>
       if String.eqb (req_method req) "POST"
       then Resolved (mkResponse 200
                        (inr (JObject [("status", JString "success")])))
       else Resolved (mkResponse 200
                        (inr (JObject [("transactions",
                                        JArray [booking])])))).

(** The dashboard as it is mounted, and as it is with one row loaded. *)
Definition mounted (w : World) : Ui.Browser Dashboard.State :=
  Ui.mkBrowser Dashboard.initial [] w.

Definition loaded (w : World) : Ui.Browser Dashboard.State :=
  Ui.mkBrowser (Dashboard.mkState (JArray [booking]) false false) [] w.

Definition app (w : World) : Ui.Browser App.State :=
  Ui.mkBrowser App.initial [] w.

Definition health_panel (w : World) : Ui.Browser HealthStatus.State :=
  Ui.mkBrowser HealthStatus.initial [] w.

(** A checkout of the repository on a machine without /home/site. *)
Definition checkout : Startup.Host :=
  Startup.mkHost None (Some "") "/src" ["/"; "/src"]
                 ["/src/app.py"; "/src/requirements.txt"]
                 "Python 3.11.4" (fun _ => "total 8") (fun _ _ => []).

(** A deployment whose WEBSITES_PORT holds two words. *)
Definition two_ports : Startup.Host :=
  Sample.host (Some "80 81")
       ["/home/site/wwwroot/app.py"; "/home/site/wwwroot/requirements.txt"].

(** A limit that has no string form, and one whose own [toString] hides
    the one of Object.prototype. *)
Definition symbol : JsValue := JSymbol "limit".

Definition hidden_toString : JsValue := JObject [("toString", JNull)].

(** A deployment with nothing in it. *)
Definition empty_deployment : Startup.Host := Sample.host None [].

End Scene.

(* ===================================================================== *)
(** * Concrete runs                                                       *)
(* ===================================================================== *)

(** Numbers print as a JavaScript engine prints them. *)
Example text_of_numbers :
  map Number_toString
      [number_of_Z 100; number_of_Z (-5); number_of_Z 0;
       Finite false 5 0; Finite true 25 1; Finite false 12345 3;
       Finite false 1 (-5); Finite false 1 (-6); Finite false 15 (-6);
       Finite false 12345678901234568 21; Finite false 1 22;
       Finite false 15 22; NaN; Infinity true]
  = ["100"; "-5"; "0";
     "0.5"; "-2.5"; "123.45";
     "0.000001"; "1e-7"; "1.5e-7";
     "123456789012345680000"; "1e+21";
     "1.5e+21"; "NaN"; "-Infinity"].
Proof. reflexivity. Qed.

(** An integer beyond 2^53 is the double next to it. *)
Example text_of_large_integers :
  map (fun z => Number_toString (number_of_Z z))
      [2 ^ 53 - 1; 2 ^ 53; 2 ^ 53 + 1; 2 ^ 64; 10 ^ 21; 10 ^ 23;
       123456789012345678901234567890; - 2 ^ 70; 2 ^ 1024]
  = ["9007199254740991"; "9007199254740992"; "9007199254740992";
     "18446744073709552000"; "1e+21"; "1e+23";
     "1.2345678901234568e+29"; "-1.1805916207174113e+21"; "Infinity"].
Proof. vm_compute. reflexivity. Qed.

Example text_of_values :
  map ToString
      [JUndefined; JNull; JBool true; JString "5&offset=3";
       JArray [JNumber (number_of_Z 1); JNull;
               JArray [JString "a"; JBool false]; JUndefined];
       JArray []; JObject [("limit", JNumber (number_of_Z 5))];
       JSymbol "s"; JObject [("toString", JString "text")];
       JArray [JNumber (number_of_Z 1); JArray [JSymbol "s"]]]
  = [Normal "undefined"; Normal "null"; Normal "true";
     Normal "5&offset=3"; Normal "1,,a,false,"; Normal "";
     Normal "[object Object]";
     Throw symbol_to_string; Throw object_to_primitive;
     Throw symbol_to_string].
Proof. reflexivity. Qed.

(** The health check answers {status: "ok"}: returned as it is, one GET
    on the wire, nothing logged. *)
Example health_ok :
  getHealth [] Sample.healthy =
  (Normal (JObject [("status", JString "ok")]),
   mkWorld (network Sample.healthy)
           [mkRequest "GET" (API_BASE ++ "/api/health") [] None]
           []).
Proof. reflexivity. Qed.

(** The transport throws a network error on the transaction listing, here
    asked for as the dashboard does, with 10. *)
Example transactions_offline :
  getTransactions [JNumber (number_of_Z 10)] Sample.offline =
  (Normal (JObject [("transactions", JArray []);
                    ("error", JString "Failed to fetch")]),
   mkWorld (network Sample.offline)
           [mkRequest "GET" (API_BASE ++ "/api/transactions-raw?limit=10")
                      [] None]
           [mkEntry "Get transactions failed:" Sample.failed_to_fetch]).
Proof. reflexivity. Qed.

(** A limit that has no string form: nothing is sent. *)
Example transactions_of_symbol :
  getTransactions [Scene.symbol] Sample.healthy =
  (Normal (JObject [("transactions", JArray []);
                    ("error",
                     JString "Cannot convert a Symbol value to a string")]),
   mkWorld (network Sample.healthy) []
           [mkEntry "Get transactions failed:" symbol_to_string]).
Proof. reflexivity. Qed.

(** A service that goes away after two requests: the third call of a run
    gets the fallback. *)
Example third_call_fails :
  fst (call GetDatabaseStatus []
         (after [(GetHealth, []); (GetEnvironment, [])] Sample.flaky)) =
  Normal (JObject [("connection_test", JBool false);
                   ("error", JString "Failed to fetch")]).
Proof. reflexivity. Qed.

Example startup_incomplete :
  Startup.startup Sample.incomplete =
  Startup.mkRun
    ["🚀 Starting SAP Integration API...";
     "📍 Current directory: /home/site/wwwroot";
     "🐍 Python version: Python 3.11.4";
     "📂 Available files: total 0";
     "❌ requirements.txt not found!"]
    ":/home/site/wwwroot" "8000" (Startup.Exit 1).
Proof. reflexivity. Qed.

(** The words of [--bind=0.0.0.0:$WEBSITES_PORT] as bash splits them. *)
Example words_of_bind :
  map (fun value => Startup.split value "--bind=0.0.0.0:" true)
      ["8000"; "80 81"; " 80"; "80 "; " "; "80  81"]
  = [["--bind=0.0.0.0:8000"];
     ["--bind=0.0.0.0:80"; "81"];
     ["--bind=0.0.0.0:"; "80"];
     ["--bind=0.0.0.0:80"];
     ["--bind=0.0.0.0:"];
     ["--bind=0.0.0.0:80"; "81"]].
Proof. reflexivity. Qed.

(** In the root directory [app.py] is /app.py. *)
Example file_in_root :
  Startup.path "/" "app.py" = "/app.py" /\
  Startup.path "/src" "app.py" = "/src/app.py".
Proof. split; reflexivity. Qed.

(* ===================================================================== *)
(** * One call, start to end                                              *)
(* ===================================================================== *)

(** The request of [getTransactions]: a GET for the base, the path and
    the text of the limit, where the limit has a text. *)
Lemma transactions_request (args : list JsValue) :
  request_of GetTransactions args =
  and_then (limit_text args)
           (fun text =>
              Normal (mkRequest "GET"
                        (API_BASE ++ "/api/transactions-raw?limit=" ++ text)
                        [] None)).
Proof.
  unfold request_of, limit_text, limit_of, template.
  destruct (ToString _); reflexivity.
Qed.

Section Guarded.

Variable init : RequestInit.
Variable tag : string.
Variable recover : Fault -> JsValue.

Lemma guarded_unsent (w : World) (e : Fault) :
  guarded (Throw e) init tag recover w =
  (Normal (recover e),
   mkWorld (network w) (wire w) (console w ++ [mkEntry tag e])).
Proof. reflexivity. Qed.

Variable url : string.

Lemma guarded_rejected (w : World) (e : Fault) :
  answer w (make_request url init) = Rejected e ->
  guarded (Normal url) init tag recover w =
  (Normal (recover e),
   mkWorld (network w) (wire w ++ [make_request url init])
           (console w ++ [mkEntry tag e])).
Proof.
  unfold answer, guarded, try_catch, bind, eval, fetch.
  intros ->. reflexivity.
Qed.

Lemma guarded_unreadable (w : World) (r : Response) (e : Fault) :
  answer w (make_request url init) = Resolved r ->
  resp_json r = inl e ->
  guarded (Normal url) init tag recover w =
  (Normal (recover e),
   mkWorld (network w) (wire w ++ [make_request url init])
           (console w ++ [mkEntry tag e])).
Proof.
  unfold answer, guarded, try_catch, bind, eval, fetch, json.
  intros -> ->. reflexivity.
Qed.

Lemma guarded_parsed (w : World) (r : Response) (body : JsValue) :
  answer w (make_request url init) = Resolved r ->
  resp_json r = inr body ->
  guarded (Normal url) init tag recover w =
  (Normal body,
   mkWorld (network w) (wire w ++ [make_request url init]) (console w)).
Proof.
  unfold answer, guarded, try_catch, bind, eval, fetch, json.
  intros -> ->. reflexivity.
Qed.

End Guarded.

(** Each method is that shape, at its own address, tag and fallback. *)
Lemma call_guarded (m : Method) (args : list JsValue) :
  exists address init,
    request_of m args =
      and_then address (fun url => Normal (make_request url init)) /\
    call m args =
    guarded address init (label m)
            (fun e => Spec.fallback m (fault_message e)).
Proof.
  destruct m; cbn [call request_of].
  - exists (Normal (API_BASE ++ "/api/health")), no_init.
    split; reflexivity.
  - exists (template (API_BASE ++ "/api/transactions-raw?limit=")
                     (or_default (argument args 0)
                                 (JNumber (number_of_Z 100)))),
           no_init.
    split; reflexivity.
  - exists (Normal (API_BASE ++ "/api/database-test")), no_init.
    split; reflexivity.
  - exists (Normal (API_BASE ++ "/api/process")),
           (mkInit (Some "POST") [("Content-Type", "application/json")] None).
    split; reflexivity.
  - exists (Normal (API_BASE ++ "/api/environment")), no_init.
    split; reflexivity.
Qed.

(** The method and the address of a request are those of the endpoint
    the specification lists, on the fixed base address. *)
Lemma request_of_endpoint (m : Method) (args : list JsValue)
      (req : Request) :
  request_of m args = Normal req ->
  exists text,
    (m = GetTransactions -> limit_text args = Normal text) /\
    req_method req = fst (Spec.endpoint m text) /\
    req_url req = API_BASE ++ snd (Spec.endpoint m text).
Proof.
  destruct m; cbn [request_of];
    try (intros [= <-]; exists ""; now repeat split).
  fold (request_of GetTransactions args).
  intros H. rewrite transactions_request in H.
  destruct (limit_text args) as [text | e]; [| discriminate].
  injection H as <-. exists text. now repeat split.
Qed.

(** A call that gets as far as the transport puts its one request on the
    wire, settles by the answer alone, logs what it caught, and completes
    normally. *)
Lemma call_sent (m : Method) (args : list JsValue) (w : World)
      (req : Request) :
  request_of m args = Normal req ->
  call m args w =
  (Normal (settle m (answer w req)),
   mkWorld (network w) (wire w ++ [req])
           (console w ++ logged m (answer w req))).
Proof.
  destruct (call_guarded m args) as (address & init & Hreq & ->).
  rewrite Hreq. destruct address as [url | e]; [| discriminate].
  cbn [and_then]. intros [= <-].
  destruct (answer w (make_request url init)) as [e | r] eqn:Hanswer.
  - now rewrite (guarded_rejected _ _ _ _ _ _ Hanswer).
  - unfold settle, logged.
    destruct (resp_json r) as [e | body] eqn:Hbody.
    + now rewrite (guarded_unreadable _ _ _ _ _ _ _ Hanswer Hbody).
    + rewrite (guarded_parsed _ _ _ _ _ _ _ Hanswer Hbody).
      now rewrite List.app_nil_r.
Qed.

(** A call whose address cannot be made sends nothing, logs the fault and
    returns the fallback made from it. *)
Lemma call_unsent (m : Method) (args : list JsValue) (w : World)
      (e : Fault) :
  request_of m args = Throw e ->
  call m args w =
  (Normal (Spec.fallback m (fault_message e)),
   mkWorld (network w) (wire w) (console w ++ [mkEntry (label m) e])).
Proof.
  destruct (call_guarded m args) as (address & init & Hreq & ->).
  rewrite Hreq. destruct address as [url | e']; [discriminate |].
  cbn [and_then]. intros [= <-]. apply guarded_unsent.
Qed.

(** Only [getTransactions] can fail to make its address. *)
Lemma unsent_is_listing (m : Method) (args : list JsValue) (e : Fault) :
  request_of m args = Throw e ->
  m = GetTransactions /\ limit_text args = Throw e.
Proof.
  destruct m; try discriminate.
  intros H. rewrite transactions_request in H.
  destruct (limit_text args); [discriminate |].
  injection H as <-. now split.
Qed.

(** Every call completes normally; the world it leaves has the same
    network and as many more requests as the call sent. *)
Lemma call_run (m : Method) (args : list JsValue) (w : World) :
  exists result logs,
    call m args w =
    (Normal result,
     mkWorld (network w) (wire w ++ requests_of m args)
             (console w ++ logs)).
Proof.
  unfold requests_of.
  destruct (request_of m args) as [req | e] eqn:Hreq.
  - rewrite (call_sent _ _ _ _ Hreq). do 2 eexists. reflexivity.
  - rewrite (call_unsent _ _ _ _ Hreq). do 2 eexists.
    now rewrite List.app_nil_r.
Qed.

(** A run of calls never changes the network, only what has been sent. *)
Lemma network_after (calls : list (Method * list JsValue)) (w : World) :
  network (after calls w) = network w.
Proof.
  revert w. induction calls as [| [m args] rest IH]; intros w; cbn [after].
  - reflexivity.
  - rewrite IH. destruct (call_run m args w) as (result & logs & ->).
    reflexivity.
Qed.

(** The requests of a run of calls, in the order of the calls. *)
Lemma wire_after (calls : list (Method * list JsValue)) (w : World) :
  wire (after calls w) =
  (wire w ++ flat_map (fun c => requests_of (fst c) (snd c)) calls)%list.
Proof.
  revert w. induction calls as [| [m args] rest IH]; intros w;
    cbn [after flat_map].
  - now rewrite List.app_nil_r.
  - rewrite IH. destruct (call_run m args w) as (result & logs & ->).
    cbn [snd fst wire]. now rewrite <- List.app_assoc.
Qed.

(** What the transport did, where it did something, it did with the
    request of the call. *)
Lemma transport_sent (w : World) (m : Method) (args : list JsValue)
      (o : FetchOutcome) :
  transport w m args = Some o ->
  exists req, request_of m args = Normal req /\ answer w req = o.
Proof.
  unfold transport. destruct (request_of m args) as [req | e];
    [| discriminate].
  intros [= <-]. now exists req.
Qed.

(** What a call returns, by what the transport did. *)
Lemma call_result (m : Method) (args : list JsValue) (w : World)
      (o : FetchOutcome) :
  transport w m args = Some o ->
  fst (call m args w) = Normal (settle m o).
Proof.
  intros (req & Hreq & <-)%transport_sent.
  now rewrite (call_sent _ _ _ _ Hreq).
Qed.

(* ===================================================================== *)
(** * The access layer: results                                           *)
(* ===================================================================== *)

(** C1. When the transport call of an operation throws a fault (the fetch
    is rejected, or reading the body is), the operation returns exactly
    the documented fallback of that operation, made from the message of
    the fault: status "error" and message for getHealth and
    triggerProcessing, transactions [] and error for getTransactions,
    connection_test false and error for getDatabaseStatus, error alone
    for getEnvironment. *)
Theorem fallback_on_fault (m : Method) (args : list JsValue) (w : World)
                          (e : Fault) :
  transport w m args = Some (Rejected e) \/
  (exists r, transport w m args = Some (Resolved r) /\
             resp_json r = inl e) ->
  fst (call m args w) = Normal (Spec.fallback m (fault_message e)).
Proof.
  intros [H | (r & H & Hbody)]; rewrite (call_result _ _ _ _ H);
    cbn [settle]; [| rewrite Hbody]; reflexivity.
Qed.

Lemma fallback_on_fault_witness :
  fst (call GetTransactions [] Sample.offline) =
  Normal (JObject [("transactions", JArray []);
                   ("error", JString "Failed to fetch")]).
Proof.
  apply (fallback_on_fault GetTransactions [] Sample.offline
                           Sample.failed_to_fetch).
  left. reflexivity.
Defined.

(** C2. When the transport call succeeds and the body of the response
    parses as the JSON value B, the operation returns B itself, with
    nothing added, removed or rewritten. *)
Theorem body_passed_through (m : Method) (args : list JsValue) (w : World)
                            (r : Response) (B : JsValue) :
  transport w m args = Some (Resolved r) ->
  resp_json r = inr B ->
  fst (call m args w) = Normal B.
Proof.
  intros H Hbody. rewrite (call_result _ _ _ _ H). cbn [settle].
  now rewrite Hbody.
Qed.

Lemma body_passed_through_witness :
  fst (call GetHealth [] Sample.healthy) =
  Normal (JObject [("status", JString "ok")]).
Proof.
  apply (body_passed_through GetHealth [] Sample.healthy
           (mkResponse 200 (inr Sample.status_ok))); reflexivity.
Defined.

(** C3, as the specification has it, fails: a response with status 500
    and a JSON body is handed to the caller of getHealth as it is, and is
    not the fallback of getHealth for any description. *)
Lemma non_success_status_counterexample :
  transport Sample.failing GetHealth [] =
    Some (Resolved Sample.response_500) /\
  resp_ok Sample.response_500 = false /\
  fst (call GetHealth [] Sample.failing) =
    Normal (JObject [("error", JString "Internal Server Error")]) /\
  forall description,
    fst (call GetHealth [] Sample.failing) <>
    Normal (Spec.fallback GetHealth description).
Proof.
  repeat split.
  intros description. cbn. discriminate.
Qed.

(** C3, amended.  The status of a delivered response is never looked at:
    a response with a non-success status whose body parses as JSON is
    returned to the caller as that body, and only one whose body does not
    parse gives the fallback of the operation. *)
Theorem non_success_status_not_inspected
        (m : Method) (args : list JsValue) (w : World) (r : Response) :
  transport w m args = Some (Resolved r) ->
  resp_ok r = false ->
  fst (call m args w) =
  Normal (match resp_json r with
          | inr body => body
          | inl e => Spec.fallback m (fault_message e)
          end).
Proof.
  intros H _. rewrite (call_result _ _ _ _ H). cbn [settle].
  now destruct (resp_json r).
Qed.

Lemma non_success_status_not_inspected_witness :
  fst (call TriggerProcessing [] Sample.failing) =
    Normal (JObject [("error", JString "Internal Server Error")]) /\
  fst (call TriggerProcessing [] Sample.gateway) =
    Normal (JObject
              [("status", JString "error");
               ("message",
                JString "Unexpected token < in JSON at position 0")]).
Proof.
  split.
  - apply (non_success_status_not_inspected TriggerProcessing []
             Sample.failing Sample.response_500).
    + reflexivity.
    + reflexivity.
  - apply (non_success_status_not_inspected TriggerProcessing []
             Sample.gateway Sample.response_502).
    + reflexivity.
    + reflexivity.
Defined.


(* ===================================================================== *)
(** * The text of a Number                                                *)
(* ===================================================================== *)

Lemma append_assoc (a b c : string) : (a ++ b) ++ c = a ++ (b ++ c).
Proof.
  induction a as [| ch a IH]; cbn; [reflexivity | now rewrite IH].
Qed.

Lemma length_append (a b : string) :
  String.length (a ++ b) = (String.length a + String.length b)%nat.
Proof.
  induction a as [| ch a IH]; cbn; [reflexivity | now rewrite IH].
Qed.

Lemma zeros_snoc (t : nat) : zeros t ++ "0" = zeros (S t).
Proof.
  induction t as [| t IH]; cbn; [reflexivity |].
  cbn in IH. now rewrite IH.
Qed.

Lemma length_zeros (t : nat) : String.length (zeros t) = t.
Proof.
  induction t as [| t IH]; cbn; [reflexivity | now rewrite IH].
Qed.

(** Reading a digit sequence that was built back to front. *)
Lemma string_of_revapp (l d : Decimal.uint) :
  NilEmpty.string_of_uint (Decimal.revapp l d) =
  NilEmpty.string_of_uint (Decimal.revapp l Decimal.Nil) ++
  NilEmpty.string_of_uint d.
Proof.
  revert d.
  induction l as [| l IH | l IH | l IH | l IH | l IH | l IH | l IH | l IH
                  | l IH | l IH ];
    intros d; cbn [Decimal.revapp];
    [ reflexivity
    | rewrite (IH (_ d)), (IH (_ Decimal.Nil)), append_assoc; reflexivity .. ].
Qed.

Lemma digits_little (p : positive) :
  digits p =
  NilEmpty.string_of_uint (Decimal.rev (Pos.to_little_uint p)).
Proof.
  unfold digits, NilZero.string_of_uint.
  pose proof (DecimalPos.Unsigned.to_uint_nonnil p) as Hnil.
  unfold Pos.to_uint in *.
  destruct (Decimal.rev (Pos.to_little_uint p)); congruence.
Qed.

Lemma digits_step (q : positive) (r : N) (p : positive) :
  (r < 10)%N ->
  N.pos p = (10 * N.pos q + r)%N ->
  digits p = digits q ++ last_digit r.
Proof.
  intros Hr Hp.
  rewrite !digits_little.
  change (Pos.to_little_uint p) with (DecimalPos.Unsigned.to_lu (N.pos p)).
  change (Pos.to_little_uint q) with (DecimalPos.Unsigned.to_lu (N.pos q)).
  rewrite Hp.
  assert (r = 0 \/ r = 1 \/ r = 2 \/ r = 3 \/ r = 4 \/ r = 5 \/ r = 6 \/
          r = 7 \/ r = 8 \/ r = 9)%N as Hcases by lia.
  pose proof (DecimalPos.Unsigned.to_ldec_tenfold q) as Hten.
  unfold Decimal.rev.
  repeat destruct Hcases as [-> | Hcases]; try subst r;
    [ rewrite N.add_0_r
    | replace (10 * N.pos q + 1)%N with (N.succ (10 * N.pos q)) by lia
    | replace (10 * N.pos q + 2)%N
        with (N.succ (N.succ (10 * N.pos q))) by lia
    | replace (10 * N.pos q + 3)%N
        with (N.succ (N.succ (N.succ (10 * N.pos q)))) by lia
    | replace (10 * N.pos q + 4)%N
        with (N.succ (N.succ (N.succ (N.succ (10 * N.pos q))))) by lia
    | replace (10 * N.pos q + 5)%N
        with (N.succ (N.succ (N.succ (N.succ (N.succ (10 * N.pos q))))))
        by lia
    | replace (10 * N.pos q + 6)%N
        with (N.succ (N.succ (N.succ (N.succ (N.succ (N.succ
                (10 * N.pos q))))))) by lia
    | replace (10 * N.pos q + 7)%N
        with (N.succ (N.succ (N.succ (N.succ (N.succ (N.succ (N.succ
                (10 * N.pos q)))))))) by lia
    | replace (10 * N.pos q + 8)%N
        with (N.succ (N.succ (N.succ (N.succ (N.succ (N.succ (N.succ (N.succ
                (10 * N.pos q))))))))) by lia
    | replace (10 * N.pos q + 9)%N
        with (N.succ (N.succ (N.succ (N.succ (N.succ (N.succ (N.succ (N.succ
                (N.succ (10 * N.pos q)))))))))) by lia ];
    rewrite ?DecimalPos.Unsigned.to_lu_succ, Hten;
    cbn [Decimal.Little.succ Decimal.revapp];
    rewrite string_of_revapp; reflexivity.
Qed.

Lemma append_empty_r (a : string) : a ++ "" = a.
Proof.
  induction a as [| ch a IH]; cbn; [reflexivity | now rewrite IH].
Qed.

(** Stripping zeros only takes zeros off the end of the digits. *)
Lemma strip_zeros_digits (fuel : nat) (p : positive) :
  exists t, digits p = digits (strip_zeros fuel p) ++ zeros t.
Proof.
  revert p. induction fuel as [| fuel IH]; intros p; cbn [strip_zeros].
  - exists 0%nat. now rewrite append_empty_r.
  - destruct ((Z.pos p mod 10 =? 0) && (1 <? Z.pos p)) eqn:Hten.
    + apply andb_true_iff in Hten as [Hmod Hgt].
      apply Z.eqb_eq in Hmod. apply Z.ltb_lt in Hgt.
      pose proof (Z.div_mod (Z.pos p) 10 ltac:(lia)) as Hdiv.
      set (q := Z.to_pos (Z.pos p / 10)).
      assert (Z.pos q = Z.pos p / 10) as Hq
        by (unfold q; rewrite Z2Pos.id; lia).
      destruct (IH q) as [t Ht]. exists (S t).
      rewrite (digits_step q 0 p) by lia.
      rewrite Ht, append_assoc. cbn [last_digit].
      now rewrite zeros_snoc.
    + exists 0%nat. now rewrite append_empty_r.
Qed.

Lemma length_last_digit (r : N) : String.length (last_digit r) = 1%nat.
Proof.
  destruct r as [| p]; [reflexivity |].
  repeat (destruct p as [p | p |]; try reflexivity).
Qed.

(** An integer below [10^n] has at most [n] digits. *)
Lemma length_digits (n : nat) (p : positive) :
  Z.pos p < 10 ^ Z.of_nat n -> (String.length (digits p) <= n)%nat.
Proof.
  revert p. induction n as [| n IH]; intros p Hp.
  - cbn in Hp. lia.
  - destruct (Z.ltb_spec (Z.pos p) 10) as [Hsmall | Hlarge].
    + assert (p = 1 \/ p = 2 \/ p = 3 \/ p = 4 \/ p = 5 \/ p = 6 \/ p = 7 \/
              p = 8 \/ p = 9)%positive as Hcases by lia.
      repeat destruct Hcases as [-> | Hcases]; try subst p; cbn; lia.
    + pose proof (Z.div_mod (Z.pos p) 10 ltac:(lia)) as Hdiv.
      pose proof (Z.mod_pos_bound (Z.pos p) 10 ltac:(lia)) as Hmod.
      set (q := Z.to_pos (Z.pos p / 10)).
      assert (Z.pos q = Z.pos p / 10) as Hq
        by (unfold q; rewrite Z2Pos.id; lia).
      rewrite (digits_step q (Z.to_N (Z.pos p mod 10)) p) by lia.
      rewrite length_append, length_last_digit.
      assert (Z.pos q < 10 ^ Z.of_nat n) as Hbound.
      { rewrite Nat2Z.inj_succ, Z.pow_succ_r in Hp by lia. lia. }
      specialize (IH q Hbound). lia.
Qed.

(** An integer of at most 21 digits prints as its digits. *)
Lemma integer_text (negative : bool) (p : positive) :
  Z.pos p < 10 ^ 21 ->
  Number_toString (number_of_positive negative p) =
  (if negative then "-" else "") ++ digits p.
Proof.
  intros Hp. unfold number_of_positive, Number_toString.
  destruct (strip_zeros_digits (Pos.size_nat p) p) as [t Ht].
  pose proof (length_digits 21 p Hp) as Hlen.
  pose proof (f_equal String.length Ht) as Hsplit.
  rewrite length_append, length_zeros in Hsplit.
  set (s := strip_zeros (Pos.size_nat p) p) in *.
  assert ((Z.of_nat (String.length (digits s))
             <=? Z.of_nat (String.length (digits p))) &&
          (Z.of_nat (String.length (digits p)) <=? 21) = true) as ->.
  { apply andb_true_iff. split; apply Z.leb_le; lia. }
  replace (Z.to_nat (Z.of_nat (String.length (digits p)) -
                     Z.of_nat (String.length (digits s)))) with t by lia.
  now rewrite <- Ht.
Qed.

(** Below 2^53 an integer is a Number as it stands, and prints as its
    decimal numeral. *)
Lemma integer_toString (z : Z) :
  Z.abs z < 2 ^ 53 ->
  Number_toString (number_of_Z z) = decimal z.
Proof.
  change (2 ^ 53) with 9007199254740992.
  destruct z as [| p | p]; intros Hz; cbn [number_of_Z]; [reflexivity | |];
    unfold number_of_magnitude;
    change (2 ^ 53) with 9007199254740992;
    (destruct (Z.ltb_spec (Z.pos p) 9007199254740992); [| lia]);
    rewrite integer_text; try reflexivity;
    change (10 ^ 21) with 1000000000000000000000; lia.
Qed.

(* ===================================================================== *)
(** * The access layer: requests                                          *)
(* ===================================================================== *)

(** C5. Called with no argument, getTransactions issues its request with
    limit=100 in the query string; called with a Number N, with the
    string form of N there; so for an integer N below 2^53 (up to where
    every integer is a Number of its own) with the decimal numeral of
    N. *)
Theorem default_and_explicit_limit :
  (forall w,
     wire (snd (getTransactions [] w)) =
     (wire w ++
      [mkRequest "GET" (API_BASE ++ "/api/transactions-raw?limit=100")
         [] None])%list) /\
  (forall (N : JsNumber) rest w,
     wire (snd (getTransactions (JNumber N :: rest) w)) =
     (wire w ++
      [mkRequest "GET"
         (API_BASE ++ "/api/transactions-raw?limit=" ++ Number_toString N)
         [] None])%list) /\
  (forall (N : Z) rest w,
     Z.abs N < 2 ^ 53 ->
     wire (snd (getTransactions (JNumber (number_of_Z N) :: rest) w)) =
     (wire w ++
      [mkRequest "GET"
         (API_BASE ++ "/api/transactions-raw?limit=" ++ decimal N)
         [] None])%list).
Proof.
  assert (forall (N : JsNumber) rest w,
            wire (snd (getTransactions (JNumber N :: rest) w)) =
            (wire w ++
             [mkRequest "GET"
                (API_BASE ++ "/api/transactions-raw?limit=" ++
                 Number_toString N)
                [] None])%list) as Hnumber.
  { intros N rest w.
    change (getTransactions (JNumber N :: rest) w)
      with (call GetTransactions (JNumber N :: rest) w).
    now rewrite (call_sent GetTransactions (JNumber N :: rest) w _
                           eq_refl). }
  split; [| split].
  - intros w.
    change (getTransactions [] w) with (call GetTransactions [] w).
    rewrite (call_sent GetTransactions [] w
               (mkRequest "GET"
                  (API_BASE ++ "/api/transactions-raw?limit=100") [] None)).
    + reflexivity.
    + vm_compute. reflexivity.
  - exact Hnumber.
  - intros N rest w HN. rewrite Hnumber.
    now rewrite (integer_toString N HN).
Qed.

Lemma default_and_explicit_limit_witness :
  wire (snd (getTransactions [JNumber (number_of_Z 10)] Sample.healthy)) =
  [mkRequest "GET" (API_BASE ++ "/api/transactions-raw?limit=10") [] None].
Proof.
  apply (proj2 (proj2 default_and_explicit_limit) 10 [] Sample.healthy).
  reflexivity.
Defined.

(** C6. triggerProcessing issues its request with method POST, the header
    Content-Type: application/json and no body, on every invocation,
    whatever it is called with. *)
Theorem trigger_is_post_json (args : list JsValue) (w : World) :
  exists req,
    wire (snd (triggerProcessing args w)) = (wire w ++ [req])%list /\
    req_method req = "POST" /\
    req_headers req = [("Content-Type", "application/json")] /\
    req_body req = None.
Proof.
  change (triggerProcessing args w) with (call TriggerProcessing args w).
  eexists. rewrite (call_sent TriggerProcessing args w _ eq_refl).
  repeat split.
Qed.

(** C7, as the specification has it, fails: called with a symbol, or with
    an object whose own [toString] hides the one of Object.prototype,
    getTransactions throws while it makes its address, inside its [try],
    and makes no round trip at all. *)
Lemma one_round_trip_counterexample :
  wire (snd (call GetTransactions [Scene.symbol] Sample.healthy)) =
    wire Sample.healthy /\
  wire (snd (call GetTransactions [Scene.hidden_toString] Sample.healthy)) =
    wire Sample.healthy /\
  forall req,
    wire (snd (call GetTransactions [Scene.symbol] Sample.healthy)) <>
    (wire Sample.healthy ++ [req])%list.
Proof.
  repeat split. intros req. cbn. discriminate.
Qed.

(** C7, amended.  Each operation makes at most one round trip per
    invocation, to its own endpoint on the fixed base address:
    GET /api/health, GET /api/transactions-raw?limit=<N>,
    GET /api/database-test, POST /api/process, GET /api/environment.  It
    makes exactly one, except that getTransactions, where the conversion
    of its limit to a string throws, makes none and returns its fallback
    made from the message of what was thrown. *)
Theorem one_round_trip (m : Method) (args : list JsValue) (w : World) :
  (forall text,
     (m = GetTransactions -> limit_text args = Normal text) ->
     exists req,
       wire (snd (call m args w)) = (wire w ++ [req])%list /\
       req_method req = fst (Spec.endpoint m text) /\
       req_url req = API_BASE ++ snd (Spec.endpoint m text)) /\
  (forall e,
     m = GetTransactions ->
     limit_text args = Throw e ->
     wire (snd (call m args w)) = wire w /\
     fst (call m args w) = Normal (Spec.fallback m (fault_message e))).
Proof.
  split.
  - intros text Htext.
    destruct (request_of m args) as [req | e] eqn:Hreq.
    + exists req. rewrite (call_sent _ _ _ _ Hreq).
      split; [reflexivity |].
      destruct (request_of_endpoint _ _ _ Hreq) as (text' & Htext' & Hm & Hu).
      destruct m; try (now split).
      specialize (Htext eq_refl). specialize (Htext' eq_refl).
      rewrite Htext in Htext'. injection Htext' as <-. now split.
    + destruct (unsent_is_listing _ _ _ Hreq) as [-> Hthrow].
      rewrite (Htext eq_refl) in Hthrow. discriminate.
  - intros e -> Hthrow.
    assert (request_of GetTransactions args = Throw e) as Hreq
      by (rewrite transactions_request, Hthrow; reflexivity).
    rewrite (call_unsent _ _ _ _ Hreq). now split.
Qed.

Lemma one_round_trip_witness :
  (exists req,
     wire (snd (call GetTransactions Scene.ten Sample.offline)) = [req] /\
     req_method req = "GET" /\
     req_url req = API_BASE ++ "/api/transactions-raw?limit=10") /\
  wire (snd (call GetTransactions [Scene.symbol] Sample.offline)) = [] /\
  fst (call GetTransactions [Scene.symbol] Sample.offline) =
    Normal (JObject
              [("transactions", JArray []);
               ("error",
                JString "Cannot convert a Symbol value to a string")]).
Proof.
  split.
  - apply (proj1 (one_round_trip GetTransactions Scene.ten Sample.offline)
                 "10").
    reflexivity.
  - apply (proj2 (one_round_trip GetTransactions [Scene.symbol]
                                 Sample.offline) symbol_to_string);
      reflexivity.
Defined.

(** C9, as the specification has it, fails: called with [undefined],
    getTransactions asks for limit=100, and not for the string form of
    its argument; called with a symbol, which has no string form, it asks
    for nothing. *)
Lemma limit_as_is_counterexample :
  map req_url (wire (snd (getTransactions [JUndefined] Sample.offline))) =
    [API_BASE ++ "/api/transactions-raw?limit=100"] /\
  ToString JUndefined = Normal "undefined" /\
  map req_url (wire (snd (getTransactions [JUndefined] Sample.offline))) <>
    [API_BASE ++ "/api/transactions-raw?limit=" ++ "undefined"] /\
  wire (snd (getTransactions [Scene.symbol] Sample.offline)) = [].
Proof.
  repeat split. vm_compute. discriminate.
Qed.

(** C9, amended.  getTransactions does not validate, clamp or coerce its
    limit: for every argument v other than [undefined] that has a string
    form (negative, fractional and non-numeric values too) the one request
    is for the base address, /api/transactions-raw?limit= and the string
    form of v as it is; for [undefined], as for no argument, it is for
    limit=100; and for a v whose conversion to a string throws (a symbol,
    an object with an own [toString], an array that holds one) no request
    is made. *)
Theorem limit_as_is (v : JsValue) (rest : list JsValue) (w : World) :
  (forall text,
     v <> JUndefined ->
     ToString v = Normal text ->
     wire (snd (getTransactions (v :: rest) w)) =
     (wire w ++
      [mkRequest "GET"
         (API_BASE ++ "/api/transactions-raw?limit=" ++ text)
         [] None])%list) /\
  (v = JUndefined ->
   wire (snd (getTransactions (v :: rest) w)) =
   (wire w ++
    [mkRequest "GET" (API_BASE ++ "/api/transactions-raw?limit=100")
       [] None])%list) /\
  (forall e,
     ToString v = Throw e ->
     wire (snd (getTransactions (v :: rest) w)) = wire w).
Proof.
  change (getTransactions (v :: rest) w)
    with (call GetTransactions (v :: rest) w).
  assert (v <> JUndefined -> limit_text (v :: rest) = ToString v) as Hlimit.
  { intros Hv. unfold limit_text, limit_of. cbn [argument nth].
    destruct v; try reflexivity. now elim Hv. }
  split; [| split].
  - intros text Hv Htext.
    rewrite (call_sent GetTransactions (v :: rest) w
               (mkRequest "GET"
                  (API_BASE ++ "/api/transactions-raw?limit=" ++ text)
                  [] None)).
    + reflexivity.
    + now rewrite transactions_request, (Hlimit Hv), Htext.
  - intros ->.
    rewrite (call_sent GetTransactions (JUndefined :: rest) w
               (mkRequest "GET"
                  (API_BASE ++ "/api/transactions-raw?limit=100") [] None)).
    + reflexivity.
    + vm_compute. reflexivity.
  - intros e Hthrow.
    assert (v <> JUndefined) as Hv by (intros ->; discriminate).
    rewrite (call_unsent GetTransactions (v :: rest) w e).
    + reflexivity.
    + now rewrite transactions_request, (Hlimit Hv), Hthrow.
Qed.

Lemma limit_as_is_witness :
  wire (snd (getTransactions [Sample.minus_two_and_a_half] Sample.offline)) =
  [mkRequest "GET" (API_BASE ++ "/api/transactions-raw?limit=-2.5") [] None]
  /\
  wire (snd (getTransactions [JString "ten"; JNull] Sample.offline)) =
  [mkRequest "GET" (API_BASE ++ "/api/transactions-raw?limit=ten") [] None]
  /\
  wire (snd (getTransactions [JUndefined] Sample.offline)) =
  [mkRequest "GET" (API_BASE ++ "/api/transactions-raw?limit=100") [] None]
  /\
  wire (snd (getTransactions [Scene.hidden_toString] Sample.offline)) = [].
Proof.
  split; [| split; [| split]].
  - apply (proj1 (limit_as_is Sample.minus_two_and_a_half [] Sample.offline)
                 "-2.5").
    + discriminate.
    + reflexivity.
  - apply (proj1 (limit_as_is (JString "ten") [JNull] Sample.offline) "ten").
    + discriminate.
    + reflexivity.
  - apply (proj1 (proj2 (limit_as_is JUndefined [] Sample.offline))).
    reflexivity.
  - apply (proj2 (proj2 (limit_as_is Scene.hidden_toString []
                                     Sample.offline))
                 object_to_primitive).
    reflexivity.
Defined.

(* ===================================================================== *)
(** * The access layer: no memory                                         *)
(* ===================================================================== *)

(** C8. The layer keeps nothing between invocations: two invocations of
    the same operation with the same arguments to which the transport
    gives the same answer have equal results, whatever calls were made
    before each of them. *)
Theorem same_answer_same_result
        (m : Method) (args : list JsValue)
        (before1 before2 : list (Method * list JsValue)) (w1 w2 : World) :
  transport (after before1 w1) m args =
  transport (after before2 w2) m args ->
  fst (call m args (after before1 w1)) = fst (call m args (after before2 w2)).
Proof.
  unfold transport.
  destruct (request_of m args) as [req | e] eqn:Hreq.
  - intros [= H]. rewrite !(call_sent _ _ _ _ Hreq). cbn [fst].
    now rewrite H.
  - intros _. now rewrite !(call_unsent _ _ _ _ Hreq).
Qed.

Lemma same_answer_same_result_witness :
  fst (call GetHealth [] Sample.healthy) =
  fst (call GetHealth []
         (after [(TriggerProcessing, []); (GetHealth, [JNull])]
                Sample.healthy))
  /\
  fst (call GetHealth [] Sample.healthy) =
  fst (call GetHealth [] (after [(GetEnvironment, [])] Sample.flaky)).
Proof.
  split.
  - apply (same_answer_same_result GetHealth [] []
             [(TriggerProcessing, []); (GetHealth, [JNull])]
             Sample.healthy Sample.healthy).
    reflexivity.
  - apply (same_answer_same_result GetHealth [] [] [(GetEnvironment, [])]
             Sample.healthy Sample.flaky).
    reflexivity.
Defined.

(* ===================================================================== *)
(** * The startup script                                                  *)
(* ===================================================================== *)

Lemma cd_app_directory (h : Startup.Host) (cwd : string) :
  In Startup.app_directory (Startup.directories h) ->
  Startup.cd h cwd Startup.app_directory = Startup.app_directory.
Proof.
  intros Hdir. unfold Startup.cd.
  assert (existsb (String.eqb Startup.app_directory) (Startup.directories h)
          = true) as ->; [| reflexivity].
  apply existsb_exists. exists Startup.app_directory.
  split; [assumption | apply String.eqb_refl].
Qed.

Lemma cd_fails (h : Startup.Host) (cwd : string) :
  ~ In Startup.app_directory (Startup.directories h) ->
  Startup.cd h cwd Startup.app_directory = cwd.
Proof.
  intros Hdir. unfold Startup.cd.
  destruct (existsb (String.eqb Startup.app_directory)
                    (Startup.directories h)) eqn:Hex; [| reflexivity].
  apply existsb_exists in Hex as (d & Hd & Heq).
  apply String.eqb_eq in Heq. subst d. now elim Hdir.
Qed.

(** How the script ends, by the two tests it makes in the directory it
    is in after its [cd]. *)
Lemma startup_outcome (h : Startup.Host) :
  Startup.outcome (Startup.startup h) =
  let cwd :=
    Startup.cd h (Startup.start_directory h) Startup.app_directory in
  if negb (Startup.is_file h cwd "app.py") then Startup.Exit 1
  else if negb (Startup.is_file h cwd "requirements.txt") then Startup.Exit 1
  else Startup.Exec
         (Startup.gunicorn
            (Startup.unquoted h cwd "--bind=0.0.0.0:"
               (Startup.expand_default (Startup.env_WEBSITES_PORT h)
                                       "8000"))).
Proof.
  unfold Startup.startup.
  change "/home/site/wwwroot" with Startup.app_directory.
  cbv zeta.
  destruct (Startup.is_file h _ "app.py"); cbn [negb]; [| reflexivity].
  destruct (Startup.is_file h _ "requirements.txt"); reflexivity.
Qed.

Lemma any_append (test : ascii -> bool) (a b : string) :
  Startup.any test (a ++ b) = Startup.any test a || Startup.any test b.
Proof.
  induction a as [| c a IH]; cbn; [reflexivity |].
  now rewrite IH, orb_assoc.
Qed.

Lemma any_or (f g : ascii -> bool) (s : string) :
  Startup.any (fun c => f c || g c) s = Startup.any f s || Startup.any g s.
Proof.
  induction s as [| c s IH]; cbn; [reflexivity |].
  rewrite IH. destruct (f c), (g c), (Startup.any f s); reflexivity.
Qed.

(** A text without blanks stays with the word it is written after. *)
Lemma split_without_blank (text word : string) :
  Startup.any Startup.blank text = false ->
  Startup.split text word true = [word ++ text].
Proof.
  revert word. induction text as [| c text IH]; intros word; cbn.
  - intros _. now rewrite append_empty_r.
  - intros [Hc Htext]%orb_false_iff. rewrite Hc, (IH _ Htext).
    now rewrite append_assoc.
Qed.

(** A plain value leaves one word, itself after the prefix. *)
Lemma unquoted_plain (h : Startup.Host) (cwd value : string) :
  Startup.plain value = true ->
  Startup.unquoted h cwd "--bind=0.0.0.0:" value =
  ["--bind=0.0.0.0:" ++ value].
Proof.
  unfold Startup.plain. rewrite negb_true_iff, any_or.
  intros [Hblank Hpattern]%orb_false_iff.
  unfold Startup.unquoted. rewrite (split_without_blank _ _ Hblank).
  cbn [flat_map]. unfold Startup.pathnames.
  rewrite any_append, Hpattern. reflexivity.
Qed.

(** C10, as the specification has it, fails.  On a machine without
    /home/site/wwwroot both required files are absent from the
    application directory, and the script, started where they are, execs
    gunicorn.  And with two words in WEBSITES_PORT, which line 43 expands
    without the quotes that line 8 gives it, the bind argument is not
    that port: the second word is an argument of its own. *)
Lemma startup_checks_then_execs_counterexample :
  Startup.is_file Scene.checkout Startup.app_directory "app.py" = false /\
  Startup.is_file Scene.checkout Startup.app_directory "requirements.txt"
    = false /\
  Startup.outcome (Startup.startup Scene.checkout) =
    Startup.Exec (Startup.gunicorn ["--bind=0.0.0.0:8000"]) /\
  Startup.outcome (Startup.startup Scene.two_ports) =
    Startup.Exec ["gunicorn"; "--bind=0.0.0.0:80"; "81";
                  "--timeout"; "600"; "--workers"; "1";
                  "--worker-class"; "sync"; "--preload";
                  "--access-logfile"; "-"; "--error-logfile"; "-";
                  "--log-level"; "info"; "app:app"].
Proof. repeat split. Qed.

(** C10, amended.  The startup script makes its two tests in the
    directory it is in after its [cd]: /home/site/wwwroot where that
    exists, the directory it was started in where it does not.  It ends
    with a status other than zero when app.py or requirements.txt is not
    a file of that directory, and otherwise execs gunicorn bound to
    0.0.0.0 and the port (8000 standing for a port that is unset or
    empty), for every port that is one plain word, with no blank and no
    pattern character in it. *)
Theorem startup_checks_then_execs (h : Startup.Host) :
  let cwd :=
    Startup.cd h (Startup.start_directory h) Startup.app_directory in
  let present name := Startup.is_file h cwd name in
  let port :=
    match Startup.env_WEBSITES_PORT h with
    | Some p => if String.eqb p "" then "8000" else p
    | None => "8000"
    end in
  (In Startup.app_directory (Startup.directories h) ->
   cwd = Startup.app_directory) /\
  (~ In Startup.app_directory (Startup.directories h) ->
   cwd = Startup.start_directory h) /\
  (present "app.py" = false \/ present "requirements.txt" = false ->
   exists status,
     Startup.outcome (Startup.startup h) = Startup.Exit status /\
     status <> 0) /\
  (present "app.py" = true /\ present "requirements.txt" = true ->
   Startup.plain port = true ->
   Startup.outcome (Startup.startup h) =
   Startup.Exec ["gunicorn"; "--bind=0.0.0.0:" ++ port;
                 "--timeout"; "600"; "--workers"; "1";
                 "--worker-class"; "sync"; "--preload";
                 "--access-logfile"; "-"; "--error-logfile"; "-";
                 "--log-level"; "info"; "app:app"]).
Proof.
  intros cwd present port. subst present. cbv beta.
  split; [intros Hdir; apply (cd_app_directory h _ Hdir) |].
  split; [intros Hdir; apply (cd_fails h _ Hdir) |].
  rewrite startup_outcome. cbv zeta. fold cwd.
  change (Startup.expand_default (Startup.env_WEBSITES_PORT h) "8000")
    with port.
  split.
  - intros Habsent. exists 1. split; [| discriminate].
    destruct (Startup.is_file h cwd "app.py"); cbn [negb]; [| reflexivity].
    destruct Habsent as [Habsent | ->]; [discriminate | reflexivity].
  - intros [-> ->] Hplain. cbn [negb].
    now rewrite (unquoted_plain h cwd port Hplain).
Qed.

Lemma startup_checks_then_execs_witness :
  (exists status,
     Startup.outcome (Startup.startup Sample.incomplete) =
       Startup.Exit status /\ status <> 0) /\
  Startup.outcome (Startup.startup Sample.deployed) =
  Startup.Exec ["gunicorn"; "--bind=0.0.0.0:8181";
                "--timeout"; "600"; "--workers"; "1";
                "--worker-class"; "sync"; "--preload";
                "--access-logfile"; "-"; "--error-logfile"; "-";
                "--log-level"; "info"; "app:app"].
Proof.
  split.
  - apply (proj1 (proj2 (proj2 (startup_checks_then_execs
                                  Sample.incomplete)))).
    right. reflexivity.
  - apply (proj2 (proj2 (proj2 (startup_checks_then_execs Sample.deployed)))).
    + split; reflexivity.
    + reflexivity.
Defined.

(* ===================================================================== *)
(** * The access layer: what else the code shows                          *)
(* ===================================================================== *)

(** X1. A call that catches a fault logs it once, under the tag of its
    operation; a call whose body parses logs nothing. *)
Theorem fault_logged_once (m : Method) (args : list JsValue) (w : World) :
  (forall e,
     transport w m args = Some (Rejected e) \/
     (exists r, transport w m args = Some (Resolved r) /\
                resp_json r = inl e) ->
     console (snd (call m args w)) =
     (console w ++
      [mkEntry (match m with
                | GetHealth => "Health check failed:"
                | GetTransactions => "Get transactions failed:"
                | GetDatabaseStatus => "Database status failed:"
                | TriggerProcessing => "Trigger processing failed:"
                | GetEnvironment => "Get environment failed:"
                end) e])%list) /\
  (forall r body,
     transport w m args = Some (Resolved r) ->
     resp_json r = inr body ->
     console (snd (call m args w)) = console w).
Proof.
  split.
  - intros e [H | (r & H & Hbody)];
      apply transport_sent in H as (req & Hreq & Hanswer);
      rewrite (call_sent _ _ _ _ Hreq), Hanswer; cbn [snd console logged];
      [| rewrite Hbody]; destruct m; reflexivity.
  - intros r body H Hbody.
    apply transport_sent in H as (req & Hreq & Hanswer).
    rewrite (call_sent _ _ _ _ Hreq), Hanswer. cbn [snd console logged].
    rewrite Hbody. apply List.app_nil_r.
Qed.

Lemma fault_logged_once_witness :
  console (snd (call GetEnvironment [] Sample.gateway)) =
    [mkEntry "Get environment failed:" Sample.unexpected_token] /\
  console (snd (call GetEnvironment [] Sample.healthy)) = [].
Proof.
  split.
  - apply (proj1 (fault_logged_once GetEnvironment [] Sample.gateway)
                 Sample.unexpected_token).
    right. exists Sample.response_502. split; reflexivity.
  - apply (proj2 (fault_logged_once GetEnvironment [] Sample.healthy)
                 (mkResponse 200 (inr Sample.status_ok)) Sample.status_ok);
      reflexivity.
Defined.

Lemma length_requests_of (m : Method) (args : list JsValue) :
  (length (requests_of m args) <= 1)%nat.
Proof.
  unfold requests_of. destruct (request_of m args); cbn; lia.
Qed.

(** X2. A run of calls, each awaited before the next, puts on the wire,
    in the order of the calls, the one request of every call that gets as
    far as the transport, and nothing for a call that throws while it
    makes its address: at most one request per call, and exactly one per
    call where every call has a request.  The network is left as it was:
    nothing is retried, batched or dropped. *)
Theorem requests_follow_calls (calls : list (Method * list JsValue))
                              (w : World) :
  wire (after calls w) =
    (wire w ++ flat_map (fun c => requests_of (fst c) (snd c)) calls)%list /\
  (length (wire (after calls w)) <= length (wire w) + length calls)%nat /\
  (Forall (fun c => exists req, request_of (fst c) (snd c) = Normal req)
          calls ->
   length (wire (after calls w)) = (length (wire w) + length calls)%nat) /\
  network (after calls w) = network w.
Proof.
  split; [apply wire_after |].
  split.
  { rewrite wire_after, length_app. apply Nat.add_le_mono_l.
    induction calls as [| c calls IH]; cbn [flat_map length]; [lia |].
    rewrite length_app. pose proof (length_requests_of (fst c) (snd c)).
    lia. }
  split; [| apply network_after].
  intros Hall. rewrite wire_after, length_app. f_equal.
  induction Hall as [| c calls (req & Hreq) _ IH]; cbn [flat_map length];
    [reflexivity |].
  rewrite length_app, IH. unfold requests_of. now rewrite Hreq.
Qed.

Lemma requests_follow_calls_witness :
  length (wire (after [(GetHealth, []); (GetTransactions, Scene.ten);
                       (TriggerProcessing, [])] Sample.healthy)) = 3%nat.
Proof.
  apply (proj1 (proj2 (proj2 (requests_follow_calls
           [(GetHealth, []); (GetTransactions, Scene.ten);
            (TriggerProcessing, [])] Sample.healthy)))).
  repeat constructor; eexists; reflexivity.
Defined.

(** X3. The four reading operations send nothing but a GET with no header
    at all (so no credentials) and no body: that is the one request of
    every call of theirs that gets as far as the transport, and a call of
    getTransactions that does not get that far sends nothing. *)
Theorem reads_send_no_headers (m : Method) (args : list JsValue)
                              (w : World) :
  m <> TriggerProcessing ->
  (forall req,
     request_of m args = Normal req ->
     wire (snd (call m args w)) = (wire w ++ [req])%list /\
     req_method req = "GET" /\
     req_headers req = [] /\
     req_body req = None) /\
  (forall e,
     request_of m args = Throw e ->
     wire (snd (call m args w)) = wire w) /\
  (m <> GetTransactions -> exists req, request_of m args = Normal req).
Proof.
  intros Hm. split; [| split].
  - intros req Hreq. rewrite (call_sent _ _ _ _ Hreq).
    split; [reflexivity |].
    destruct m; try (now elim Hm);
      try (injection Hreq as <-; now repeat split).
    rewrite transactions_request in Hreq.
    destruct (limit_text args); [| discriminate].
    injection Hreq as <-. now repeat split.
  - intros e Hreq. now rewrite (call_unsent _ _ _ _ Hreq).
  - intros Hlisting. destruct m; try (now elim Hlisting);
      eexists; reflexivity.
Qed.

Lemma reads_send_no_headers_witness :
  wire (snd (call GetDatabaseStatus [] Sample.offline)) =
    [mkRequest "GET" (API_BASE ++ "/api/database-test") [] None] /\
  req_method (mkRequest "GET" (API_BASE ++ "/api/database-test") [] None)
    = "GET" /\
  req_headers (mkRequest "GET" (API_BASE ++ "/api/database-test") [] None)
    = [] /\
  req_body (mkRequest "GET" (API_BASE ++ "/api/database-test") [] None)
    = None.
Proof.
  apply (proj1 (reads_send_no_headers GetDatabaseStatus [] Sample.offline
                  ltac:(discriminate))).
  reflexivity.
Defined.

(* ===================================================================== *)
(** * The startup script: what else the code shows                        *)
(* ===================================================================== *)

(** X4. Where /home/site/wwwroot does not exist the script does not stop
    at its failed [cd]: it makes its two tests in the directory it was
    started in, and with app.py and requirements.txt there it execs
    gunicorn from that directory. *)
Theorem startup_without_app_directory (h : Startup.Host) :
  ~ In Startup.app_directory (Startup.directories h) ->
  Startup.outcome (Startup.startup h) =
  if Startup.is_file h (Startup.start_directory h) "app.py" &&
     Startup.is_file h (Startup.start_directory h) "requirements.txt"
  then Startup.Exec
         (Startup.gunicorn
            (Startup.unquoted h (Startup.start_directory h)
               "--bind=0.0.0.0:"
               (Startup.expand_default (Startup.env_WEBSITES_PORT h)
                                       "8000")))
  else Startup.Exit 1.
Proof.
  intros Hdir. rewrite startup_outcome. cbv zeta.
  rewrite (cd_fails h _ Hdir).
  destruct (Startup.is_file h _ "app.py"); [| reflexivity].
  destruct (Startup.is_file h _ "requirements.txt"); reflexivity.
Qed.

Lemma startup_without_app_directory_witness :
  Startup.outcome (Startup.startup Scene.checkout) =
  Startup.Exec (Startup.gunicorn ["--bind=0.0.0.0:8000"]).
Proof.
  apply (startup_without_app_directory Scene.checkout).
  intros [H | [H | []]]; discriminate H.
Defined.


Lemma last_echo (printed : list string) (line : string) :
  last (Startup.echo printed line) "" = line.
Proof. apply last_last. Qed.



(** X6. When the script gives up, its status is 1 and its last line names
    the first file that is missing: app.py where that is missing, also
    when requirements.txt is missing too. *)
Theorem first_missing_file_reported (h : Startup.Host) (status : Z) :
  Startup.outcome (Startup.startup h) = Startup.Exit status ->
  let cwd :=
    Startup.cd h (Startup.start_directory h) Startup.app_directory in
  status = 1 /\
  last (Startup.stdout (Startup.startup h)) "" =
    (if Startup.is_file h cwd "app.py"
     then "❌ requirements.txt not found!"
     else "❌ app.py not found!").
Proof.
  unfold Startup.startup.
  change "/home/site/wwwroot" with Startup.app_directory.
  cbv zeta.
  destruct (Startup.is_file h _ "app.py"); cbn [negb].
  - destruct (Startup.is_file h _ "requirements.txt"); cbn [negb].
    + discriminate.
    + cbn [Startup.outcome Startup.stdout]. intros [= <-].
      split; [reflexivity | apply last_echo].
  - cbn [Startup.outcome Startup.stdout]. intros [= <-].
    split; [reflexivity | apply last_echo].
Qed.

Lemma first_missing_file_reported_witness :
  1 = 1 /\
  last (Startup.stdout (Startup.startup Scene.empty_deployment)) "" =
    "❌ app.py not found!".
Proof.
  apply (first_missing_file_reported Scene.empty_deployment 1).
  reflexivity.
Defined.

(* ===================================================================== *)
(** * The components: how a handler runs                                  *)
(* ===================================================================== *)

Section Handlers.

Import Ui.

Lemma get_present (v : JsValue) (key : string) :
  nullish v = false -> get v key = Normal (get_optional v key).
Proof. destruct v; (discriminate || reflexivity). Qed.

Lemma get_absent (v : JsValue) (key : string) :
  nullish v = true -> get v key = Throw (cannot_read v key).
Proof. destruct v; (discriminate || reflexivity). Qed.

(** The requests of the calls that the components make. *)
Lemma listing_request : request_of GetTransactions Scene.ten = Normal Scene.listing.
Proof. vm_compute. reflexivity. Qed.

(** The world a call leaves behind, and what it returns. *)
Lemma world_after_call (m : Method) (args : list JsValue) (w : World)
      (req : Request) :
  request_of m args = Normal req ->
  snd (call m args w) =
  mkWorld (network w) (wire w ++ [req])
          (console w ++ logged m (answer w req)).
Proof. intros Hreq. now rewrite (call_sent _ _ _ _ Hreq). Qed.

Lemma result_of_call (m : Method) (args : list JsValue) (w : World)
      (req : Request) :
  request_of m args = Normal req ->
  fst (call m args w) = Normal (settle m (answer w req)).
Proof. intros Hreq. now rewrite (call_sent _ _ _ _ Hreq). Qed.

Lemma lift_call {S : Type} (m : Method) (args : list JsValue)
      (b : Browser S) (req : Request) :
  request_of m args = Normal req ->
  lift (call m args) b =
  (Normal (settle m (answer (outside b) req)),
   mkBrowser (state b) (alerts b) (snd (call m args (outside b)))).
Proof.
  intros Hreq. unfold lift. now rewrite (call_sent _ _ _ _ Hreq).
Qed.

Lemma settle_fault (m : Method) (o : FetchOutcome) (e : Fault) :
  o = Rejected e \/ (exists r, o = Resolved r /\ resp_json r = inl e) ->
  settle m o = Spec.fallback m (fault_message e).
Proof.
  intros [-> | (r & -> & Hbody)]; cbn [settle]; [| rewrite Hbody];
    reflexivity.
Qed.

Lemma answer_fault (m : Method) (args : list JsValue) (w : World)
      (req : Request) (e : Fault) :
  request_of m args = Normal req ->
  transport w m args = Some (Rejected e) \/
  (exists r,
     transport w m args = Some (Resolved r) /\ resp_json r = inl e) ->
  answer w req = Rejected e \/
  (exists r, answer w req = Resolved r /\ resp_json r = inl e).
Proof.
  intros Hreq. unfold transport. rewrite Hreq.
  intros [[= ->] | (r & [= ->] & Hbody)]; [now left | right; now exists r].
Qed.

Lemma answer_resolved (m : Method) (args : list JsValue) (w : World)
      (req : Request) (r : Response) :
  request_of m args = Normal req ->
  transport w m args = Some (Resolved r) ->
  answer w req = Resolved r.
Proof.
  intros Hreq. unfold transport. rewrite Hreq. now intros [= ->].
Qed.

Lemma loadInitialData_run (b : Browser App.State) :
  App.loadInitialData b =
  (Normal tt,
   mkBrowser
     (App.mkState
        (settle GetHealth (answer (outside b) Scene.health_check))
        false
        (App.currentView (state b)))
     (alerts b)
     (snd (call GetHealth [] (outside b)))).
Proof.
  unfold App.loadInitialData, try_catch_finally, bind.
  change (getHealth ?a) with (call GetHealth a).
  rewrite (lift_call GetHealth [] b Scene.health_check eq_refl).
  reflexivity.
Qed.

Lemma checkDatabaseStatus_run (b : Browser HealthStatus.State) :
  HealthStatus.checkDatabaseStatus b =
  (Normal tt,
   mkBrowser
     (HealthStatus.mkState
        (settle GetDatabaseStatus
                (answer (outside b) Scene.database_test))
        false)
     (alerts b)
     (snd (call GetDatabaseStatus [] (outside b)))).
Proof.
  unfold HealthStatus.checkDatabaseStatus, try_catch_finally, bind.
  unfold HealthStatus.setLoading at 1. unfold set_state at 1.
  change (getDatabaseStatus ?a) with (call GetDatabaseStatus a).
  rewrite (lift_call GetDatabaseStatus [] _ Scene.database_test eq_refl).
  reflexivity.
Qed.

Lemma loadTransactions_run (b : Browser Dashboard.State) :
  let data := settle GetTransactions (answer (outside b) Scene.listing) in
  let w := snd (call GetTransactions Scene.ten (outside b)) in
  Dashboard.loadTransactions b =
  (Normal tt,
   match get data "transactions" with
   | Normal found =>
       mkBrowser
         (Dashboard.mkState (or_else found (JArray [])) false
                            (Dashboard.processing (state b)))
         (alerts b) w
   | Throw e =>
       mkBrowser
         (Dashboard.mkState (Dashboard.transactions (state b)) false
                            (Dashboard.processing (state b)))
         (alerts b)
         (mkWorld (network w) (wire w)
                  (console w ++ [mkEntry "Failed to load transactions:" e]))
   end).
Proof.
  intros data w.
  unfold Dashboard.loadTransactions, try_catch_finally, bind.
  unfold Dashboard.setLoading at 1. unfold set_state at 1.
  change (getTransactions ?a) with (call GetTransactions a).
  fold Scene.ten.
  rewrite (lift_call GetTransactions Scene.ten _ _ listing_request).
  cbn [state alerts outside]. fold data. fold w.
  unfold eval. destruct (get data "transactions") as [found | e];
    reflexivity.
Qed.

Lemma handleTriggerProcessing_run (b : Browser Dashboard.State) :
  let result :=
    settle TriggerProcessing (answer (outside b) Scene.processing) in
  let w := snd (call TriggerProcessing [] (outside b)) in
  let released (shown : string) :=
    mkBrowser
      (Dashboard.mkState (Dashboard.transactions (state b))
                         (Dashboard.loading (state b)) false)
      (alerts b ++ [shown])%list w in
  Dashboard.handleTriggerProcessing b =
  (Normal tt,
   match get result "status" with
   | Throw e => released ("Processing error: " ++ fault_message e)
   | Normal status =>
       if is_string status "success" then
         let reloaded :=
           snd (Dashboard.loadTransactions
                  (mkBrowser
                     (Dashboard.mkState (Dashboard.transactions (state b))
                                        (Dashboard.loading (state b)) true)
                     (alerts b ++ ["Processing completed successfully!"])%list
                     w)) in
         mkBrowser
           (Dashboard.mkState (Dashboard.transactions (state reloaded))
                              (Dashboard.loading (state reloaded)) false)
           (alerts reloaded) (outside reloaded)
       else
         match template "Processing failed: "
                        (get_optional result "message") with
         | Normal text => released text
         | Throw e => released ("Processing error: " ++ fault_message e)
         end
   end).
Proof.
  intros result w released.
  unfold Dashboard.handleTriggerProcessing, try_catch_finally, bind.
  unfold Dashboard.setProcessing at 1. unfold set_state at 1.
  change (triggerProcessing ?a) with (call TriggerProcessing a).
  rewrite (lift_call TriggerProcessing [] _ Scene.processing eq_refl).
  cbn [state alerts outside]. fold result. fold w.
  unfold eval.
  destruct (nullish result) eqn:Hnull.
  - rewrite (get_absent _ _ Hnull). reflexivity.
  - rewrite !(get_present _ _ Hnull).
    destruct (is_string (get_optional result "status") "success").
    + unfold alert at 1. cbn [state alerts outside].
      rewrite loadTransactions_run. cbv zeta.
      cbn [state alerts outside snd].
      destruct (get _ "transactions"); reflexivity.
    + destruct (template _ _); reflexivity.
Qed.

End Handlers.

(* ===================================================================== *)
(** * App.js: what the code shows                                         *)
(* ===================================================================== *)

(** X7. [loadInitialData] always ends normally with [loading] false and
    with [healthStatus] what getHealth returned, fallback included; its
    own catch block never runs: the world is left as getHealth left it,
    with nothing logged or alerted by the handler. *)
Theorem initial_load_stores_result (b : Ui.Browser App.State) :
  exists health,
    fst (getHealth [] (Ui.outside b)) = Normal health /\
    App.loadInitialData b =
    (Normal tt,
     Ui.mkBrowser
       (App.mkState health false (App.currentView (Ui.state b)))
       (Ui.alerts b)
       (snd (getHealth [] (Ui.outside b)))).
Proof.
  eexists. split.
  - apply (result_of_call GetHealth [] _ Scene.health_check eq_refl).
  - apply loadInitialData_run.
Qed.

(** Once loaded, the component stays loaded, on one of its two views. *)
Lemma app_stays_loaded (events : list App.Event) (b : Ui.Browser App.State) :
  App.loading (Ui.state b) = false ->
  App.currentView (Ui.state b) = "dashboard" \/
  App.currentView (Ui.state b) = "health" ->
  App.loading (Ui.state (Ui.run App.handle events b)) = false /\
  (App.currentView (Ui.state (Ui.run App.handle events b)) = "dashboard" \/
   App.currentView (Ui.state (Ui.run App.handle events b)) = "health").
Proof.
  revert b. induction events as [| e rest IH]; intros b Hloaded Hview.
  - now split.
  - cbn [Ui.run]. apply IH; destruct e; cbn [App.handle];
      rewrite ?loadInitialData_run; cbn; auto.
Qed.

(** X8. After the mount effect has run, whatever is clicked and in
    whatever order, the loading screen never comes back and exactly one of
    the two panels is shown, its navigation button the active one, with
    the current [healthStatus]. *)
Theorem one_panel_after_mount (events : list App.Event)
        (shown : list string) (w : World) :
  let s :=
    Ui.state (Ui.run App.handle (App.Mount :: events)
                     (Ui.mkBrowser App.initial shown w)) in
  App.render s = App.Page "active" "" (Some (App.healthStatus s)) None \/
  App.render s = App.Page "" "active" None (Some (App.healthStatus s)).
Proof.
  intros s. subst s. cbn [Ui.run App.handle].
  rewrite loadInitialData_run. cbn [snd].
  match goal with
  | |- context [Ui.run App.handle events ?b] =>
      destruct (app_stays_loaded events b) as [Hloaded Hview];
      [reflexivity | now left |];
      set (s := Ui.state (Ui.run App.handle events b)) in *
  end.
  unfold App.render. rewrite Hloaded.
  destruct Hview as [-> | ->]; [left | right]; reflexivity.
Qed.

(* ===================================================================== *)
(** * Dashboard.jsx: what the code shows                                  *)
(* ===================================================================== *)

(** X9. [loadTransactions] always ends normally, after exactly one
    request, a GET for limit=10; it leaves [loading] false, shows no alert
    and does not touch [processing]. *)
Theorem load_makes_one_request (b : Ui.Browser Dashboard.State) :
  exists b',
    Dashboard.loadTransactions b = (Normal tt, b') /\
    Dashboard.loading (Ui.state b') = false /\
    Dashboard.processing (Ui.state b') =
      Dashboard.processing (Ui.state b) /\
    Ui.alerts b' = Ui.alerts b /\
    wire (Ui.outside b') =
    (wire (Ui.outside b) ++
     [mkRequest "GET" (API_BASE ++ "/api/transactions-raw?limit=10")
                [] None])%list.
Proof.
  rewrite loadTransactions_run. cbv zeta. eexists. split; [reflexivity |].
  rewrite (world_after_call _ _ _ _ listing_request).
  destruct (get _ "transactions"); repeat split.
Qed.

(** X10. A refresh that meets a transport fault empties the table:
    whatever rows were shown, [transactions] is the empty array
    afterwards. *)
Theorem failed_refresh_clears_table (b : Ui.Browser Dashboard.State)
                                    (e : Fault) :
  transport (Ui.outside b) GetTransactions Scene.ten = Some (Rejected e) \/
  (exists r,
     transport (Ui.outside b) GetTransactions Scene.ten =
       Some (Resolved r) /\
     resp_json r = inl e) ->
  Dashboard.transactions (Ui.state (snd (Dashboard.loadTransactions b))) =
  JArray [].
Proof.
  intros Hfault.
  apply (answer_fault _ _ _ _ _ listing_request) in Hfault.
  rewrite loadTransactions_run. cbv zeta.
  now rewrite (settle_fault GetTransactions _ e Hfault).
Qed.

Lemma failed_refresh_clears_table_witness :
  Dashboard.transactions
    (Ui.state (snd (Dashboard.loadTransactions
                      (Scene.loaded Sample.offline)))) = JArray [].
Proof.
  apply (failed_refresh_clears_table (Scene.loaded Sample.offline)
                                     Sample.failed_to_fetch).
  left. reflexivity.
Defined.

(** X11. A body that is [null] makes the read of its [transactions]
    throw; the handler catches that, logs it under its own tag after a
    call that itself logged nothing, and leaves the rows as they
    were. *)
Theorem null_body_keeps_table (b : Ui.Browser Dashboard.State)
                              (r : Response) (body : JsValue) :
  transport (Ui.outside b) GetTransactions Scene.ten = Some (Resolved r) ->
  resp_json r = inr body ->
  nullish body = true ->
  let b' := snd (Dashboard.loadTransactions b) in
  Dashboard.transactions (Ui.state b') =
    Dashboard.transactions (Ui.state b) /\
  console (Ui.outside b') =
  (console (Ui.outside b) ++
   [mkEntry "Failed to load transactions:"
            (cannot_read body "transactions")])%list.
Proof.
  intros Hanswer Hbody Hnull.
  apply (answer_resolved _ _ _ _ _ listing_request) in Hanswer.
  rewrite loadTransactions_run. cbv zeta.
  rewrite (world_after_call _ _ _ _ listing_request), Hanswer.
  cbn [settle logged]. rewrite Hbody.
  rewrite (get_absent _ _ Hnull). cbn. now rewrite List.app_nil_r.
Qed.

Lemma null_body_keeps_table_witness :
  let b' := snd (Dashboard.loadTransactions (Scene.loaded Scene.null_body)) in
  Dashboard.transactions (Ui.state b') = JArray [Scene.booking] /\
  console (Ui.outside b') =
  [mkEntry "Failed to load transactions:"
     (mkFault "TypeError"
        "Cannot read properties of null (reading 'transactions')")].
Proof.
  apply (null_body_keeps_table (Scene.loaded Scene.null_body)
                               (mkResponse 200 (inr JNull)) JNull);
    reflexivity.
Defined.

Lemma or_else_truthy (v : JsValue) : ToBoolean (or_else v (JArray [])) = true.
Proof.
  unfold or_else. destruct (ToBoolean v) eqn:Hv; [assumption | reflexivity].
Qed.

Lemma load_keeps_truthy (b : Ui.Browser Dashboard.State) :
  ToBoolean (Dashboard.transactions (Ui.state b)) = true ->
  ToBoolean (Dashboard.transactions
               (Ui.state (snd (Dashboard.loadTransactions b)))) = true.
Proof.
  intros Hb. rewrite loadTransactions_run. cbv zeta.
  destruct (get _ "transactions"); cbn [snd Ui.state Dashboard.transactions];
    [apply or_else_truthy | assumption].
Qed.

Lemma handle_keeps_truthy (e : Dashboard.Event)
      (b : Ui.Browser Dashboard.State) :
  ToBoolean (Dashboard.transactions (Ui.state b)) = true ->
  ToBoolean (Dashboard.transactions
               (Ui.state (snd (Dashboard.handle e b)))) = true.
Proof.
  intros Hb. destruct e; cbn [Dashboard.handle];
    try (now apply load_keeps_truthy).
  rewrite handleTriggerProcessing_run. cbv zeta. cbn [snd].
  destruct (get _ "status") as [status | err]; [| assumption].
  destruct (is_string status "success").
  - cbn [Ui.state Dashboard.transactions]. now apply load_keeps_truthy.
  - destruct (template _ _); assumption.
Qed.

(** X12. What is kept in [transactions] is always truthy, never [null]
    or [undefined]: so it is from the start, and no handler, in any order
    of events and whatever the service answers, stores anything else.
    The [length] that the component reads from it when it renders is
    therefore never read from [null] or [undefined]. *)
Theorem transactions_stay_truthy (events : list Dashboard.Event)
                                 (b : Ui.Browser Dashboard.State) :
  ToBoolean (Dashboard.transactions (Ui.state b)) = true ->
  let kept :=
    Dashboard.transactions
      (Ui.state (Ui.run Dashboard.handle events b)) in
  ToBoolean kept = true /\ nullish kept = false.
Proof.
  intros Hb kept. subst kept.
  assert (ToBoolean
            (Dashboard.transactions
               (Ui.state (Ui.run Dashboard.handle events b))) = true) as H.
  { revert b Hb. induction events as [| e rest IH]; intros b Hb.
    - exact Hb.
    - cbn [Ui.run]. apply IH. now apply handle_keeps_truthy. }
  split; [exact H |].
  revert H.
  generalize (Dashboard.transactions
                (Ui.state (Ui.run Dashboard.handle events b))).
  intros kept; destruct kept; (discriminate || reflexivity).
Qed.

Lemma transactions_stay_truthy_witness :
  let kept :=
    Dashboard.transactions
      (Ui.state
         (Ui.run Dashboard.handle
                 [Dashboard.Mount; Dashboard.ClickTriggerProcessing;
                  Dashboard.ClickRefresh]
                 (Scene.mounted Scene.null_body))) in
  ToBoolean kept = true /\ nullish kept = false.
Proof.
  apply (transactions_stay_truthy
           [Dashboard.Mount; Dashboard.ClickTriggerProcessing;
            Dashboard.ClickRefresh]
           (Scene.mounted Scene.null_body)).
  reflexivity.
Defined.

(** X13. A click on the processing button always ends normally, with
    exactly one alert shown and [processing] false again, whatever the
    service did. *)
Theorem trigger_alerts_once (b : Ui.Browser Dashboard.State) :
  exists b' shown,
    Dashboard.handleTriggerProcessing b = (Normal tt, b') /\
    Ui.alerts b' = (Ui.alerts b ++ [shown])%list /\
    Dashboard.processing (Ui.state b') = false.
Proof.
  rewrite handleTriggerProcessing_run. cbv zeta.
  destruct (get _ "status") as [status | err].
  - destruct (is_string status "success").
    + rewrite loadTransactions_run. cbv zeta. cbn [snd].
      destruct (get _ "transactions"); do 2 eexists; repeat split.
    + destruct (template _ _); do 2 eexists; repeat split.
  - do 2 eexists. repeat split.
Qed.

(** X14. A click on the processing button sends the POST and, exactly
    when the [status] of what triggerProcessing returned is the string
    "success", one more request after it: the GET for limit=10 that
    reloads the table.  No other request is made. *)
Theorem reload_only_on_success (b : Ui.Browser Dashboard.State) :
  exists result,
    fst (triggerProcessing [] (Ui.outside b)) = Normal result /\
    wire (Ui.outside (snd (Dashboard.handleTriggerProcessing b))) =
    (wire (Ui.outside b) ++
     mkRequest "POST" (API_BASE ++ "/api/process")
               [("Content-Type", "application/json")] None ::
     (if is_string (get_optional result "status") "success"
      then [mkRequest "GET" (API_BASE ++ "/api/transactions-raw?limit=10")
                      [] None]
      else []))%list.
Proof.
  eexists.
  split;
    [apply (result_of_call TriggerProcessing [] _ Scene.processing eq_refl) |].
  rewrite handleTriggerProcessing_run. cbv zeta. cbn [snd].
  set (result := settle TriggerProcessing _).
  pose proof (world_after_call TriggerProcessing [] (Ui.outside b)
                               Scene.processing eq_refl) as Hworld.
  destruct (nullish result) eqn:Hnull.
  - rewrite (get_absent _ _ Hnull).
    replace (get_optional result "status") with JUndefined
      by (destruct result; (discriminate || reflexivity)).
    cbn [is_string Ui.outside]. now rewrite Hworld.
  - rewrite (get_present _ _ Hnull).
    destruct (is_string (get_optional result "status") "success").
    + rewrite loadTransactions_run. cbv zeta. cbn [snd Ui.outside].
      rewrite (world_after_call _ _ _ _ listing_request), Hworld.
      destruct (get _ "transactions"); cbn [Ui.outside wire];
        now rewrite <- List.app_assoc.
    + destruct (template _ _); cbn [Ui.outside]; now rewrite Hworld.
Qed.

(** X15. When the transport call of the processing request throws, the
    click is answered by the alert "Processing failed: " with the message
    of the fault (the fallback goes the way of a refused processing, not
    through the catch block of the handler); nothing is reloaded and the
    rows stay. *)
Theorem fault_alerts_failed (b : Ui.Browser Dashboard.State) (e : Fault) :
  transport (Ui.outside b) TriggerProcessing [] = Some (Rejected e) \/
  (exists r,
     transport (Ui.outside b) TriggerProcessing [] = Some (Resolved r) /\
     resp_json r = inl e) ->
  Dashboard.handleTriggerProcessing b =
  (Normal tt,
   Ui.mkBrowser
     (Dashboard.mkState (Dashboard.transactions (Ui.state b))
                        (Dashboard.loading (Ui.state b)) false)
     (Ui.alerts b ++ [("Processing failed: " ++ fault_message e)%string])%list
     (snd (triggerProcessing [] (Ui.outside b)))).
Proof.
  intros Hfault.
  apply (answer_fault TriggerProcessing [] _ Scene.processing _ eq_refl) in Hfault.
  rewrite handleTriggerProcessing_run. cbv zeta.
  now rewrite (settle_fault TriggerProcessing _ e Hfault).
Qed.

Lemma fault_alerts_failed_witness :
  Ui.alerts (snd (Dashboard.handleTriggerProcessing
                    (Scene.loaded Sample.offline))) =
  ["Processing failed: Failed to fetch"].
Proof.
  rewrite (fault_alerts_failed (Scene.loaded Sample.offline)
                               Sample.failed_to_fetch).
  - reflexivity.
  - left. reflexivity.
Defined.

(** X16. Only a body that is [null] takes the catch block of the handler
    at the read of [status]: that read throws, and the alert is
    "Processing error: " with the message of that TypeError. *)
Theorem null_result_alerts_error (b : Ui.Browser Dashboard.State)
                                 (r : Response) (body : JsValue) :
  transport (Ui.outside b) TriggerProcessing [] = Some (Resolved r) ->
  resp_json r = inr body ->
  nullish body = true ->
  Ui.alerts (snd (Dashboard.handleTriggerProcessing b)) =
  (Ui.alerts b ++
   [("Processing error: " ++
     fault_message (cannot_read body "status"))%string])%list.
Proof.
  intros Hanswer Hbody Hnull.
  apply (answer_resolved TriggerProcessing [] _ Scene.processing _ eq_refl) in Hanswer.
  rewrite handleTriggerProcessing_run. cbv zeta.
  rewrite Hanswer. cbn [settle]. rewrite Hbody.
  now rewrite (get_absent _ _ Hnull).
Qed.

Lemma null_result_alerts_error_witness :
  Ui.alerts (snd (Dashboard.handleTriggerProcessing
                    (Scene.mounted Scene.null_body))) =
  ["Processing error: Cannot read properties of null (reading 'status')"].
Proof.
  apply (null_result_alerts_error (Scene.mounted Scene.null_body)
                                  (mkResponse 200 (inr JNull)) JNull);
    reflexivity.
Defined.

(** X17. A body that is an object with no [message] and a [status] other
    than "success" (what a server error with its own JSON body is) is
    answered by the alert "Processing failed: undefined". *)
Theorem missing_message_alerts_undefined
        (b : Ui.Browser Dashboard.State) (r : Response)
        (props : list (string * JsValue)) :
  transport (Ui.outside b) TriggerProcessing [] = Some (Resolved r) ->
  resp_json r = inr (JObject props) ->
  is_string (lookup props "status") "success" = false ->
  lookup props "message" = JUndefined ->
  Ui.alerts (snd (Dashboard.handleTriggerProcessing b)) =
  (Ui.alerts b ++ ["Processing failed: undefined"])%list.
Proof.
  intros Hanswer Hbody Hstatus Hmessage.
  apply (answer_resolved TriggerProcessing [] _ Scene.processing _ eq_refl) in Hanswer.
  rewrite handleTriggerProcessing_run. cbv zeta.
  rewrite Hanswer. cbn [settle]. rewrite Hbody.
  cbn [get get_optional]. rewrite Hstatus, Hmessage. reflexivity.
Qed.

Lemma missing_message_alerts_undefined_witness :
  Ui.alerts (snd (Dashboard.handleTriggerProcessing
                    (Scene.mounted Sample.failing))) =
  ["Processing failed: undefined"].
Proof.
  apply (missing_message_alerts_undefined
           (Scene.mounted Sample.failing) Sample.response_500
           [("error", JString "Internal Server Error")]);
    reflexivity.
Defined.

(** X18. When processing reports "success" and the reload that follows
    is answered by an object with a truthy [transactions], the click ends
    with the success alert, those transactions in the table, and neither
    [loading] nor [processing] left on. *)
Theorem success_reloads_table
        (b : Ui.Browser Dashboard.State) (r1 r2 : Response)
        (props1 props2 : list (string * JsValue)) :
  transport (Ui.outside b) TriggerProcessing [] = Some (Resolved r1) ->
  resp_json r1 = inr (JObject props1) ->
  is_string (lookup props1 "status") "success" = true ->
  transport (snd (triggerProcessing [] (Ui.outside b)))
            GetTransactions Scene.ten = Some (Resolved r2) ->
  resp_json r2 = inr (JObject props2) ->
  ToBoolean (lookup props2 "transactions") = true ->
  let b' := snd (Dashboard.handleTriggerProcessing b) in
  Ui.state b' =
    Dashboard.mkState (lookup props2 "transactions") false false /\
  Ui.alerts b' =
    (Ui.alerts b ++ ["Processing completed successfully!"])%list.
Proof.
  intros H1 Hbody1 Hstatus H2 Hbody2 Hrows.
  apply (answer_resolved TriggerProcessing [] _ Scene.processing _ eq_refl) in H1.
  apply (answer_resolved _ _ _ _ _ listing_request) in H2.
  change (triggerProcessing [] (Ui.outside b))
    with (call TriggerProcessing [] (Ui.outside b)) in H2.
  rewrite handleTriggerProcessing_run. cbv zeta.
  rewrite H1. cbn [settle]. rewrite Hbody1.
  cbn [get]. rewrite Hstatus.
  rewrite loadTransactions_run. cbv zeta. cbn [Ui.outside].
  rewrite H2. cbn [settle]. rewrite Hbody2. cbn [get snd Ui.state Ui.alerts].
  unfold or_else. rewrite Hrows. cbn [Dashboard.transactions Dashboard.loading].
  now split.
Qed.

Lemma success_reloads_table_witness :
  let b' := snd (Dashboard.handleTriggerProcessing
                   (Scene.mounted Scene.processed)) in
  Ui.state b' =
    Dashboard.mkState (JArray [Scene.booking]) false false /\
  Ui.alerts b' = ["Processing completed successfully!"].
Proof.
  apply (success_reloads_table
           (Scene.mounted Scene.processed)
           (mkResponse 200 (inr (JObject [("status", JString "success")])))
           (mkResponse 200
              (inr (JObject [("transactions", JArray [Scene.booking])])))
           [("status", JString "success")]
           [("transactions", JArray [Scene.booking])]);
    reflexivity.
Defined.

(** X19. When the health check of the mount effect meets a transport
    fault, the quick stats that the dashboard shows for the stored
    [healthStatus] read: API status "error", database disconnected, zero
    transactions, processing unavailable. *)
Theorem stats_after_failed_health (b : Ui.Browser App.State) (e : Fault) :
  transport (Ui.outside b) GetHealth [] = Some (Rejected e) \/
  (exists r,
     transport (Ui.outside b) GetHealth [] = Some (Resolved r) /\
     resp_json r = inl e) ->
  Dashboard.stats
    (App.healthStatus (Ui.state (snd (App.loadInitialData b)))) =
  Normal (Dashboard.mkStats "status error" (JString "error")
                            "disconnected" "❌ Disconnected"
                            (JNumber Zero)
                            "unavailable" "❌ Unavailable").
Proof.
  intros Hfault.
  apply (answer_fault GetHealth [] _ Scene.health_check _ eq_refl) in Hfault.
  rewrite loadInitialData_run.
  now rewrite (settle_fault GetHealth _ e Hfault).
Qed.

Lemma stats_after_failed_health_witness :
  Dashboard.stats
    (App.healthStatus
       (Ui.state (snd (App.loadInitialData (Scene.app Sample.gateway))))) =
  Normal (Dashboard.mkStats "status error" (JString "error")
                            "disconnected" "❌ Disconnected"
                            (JNumber Zero)
                            "unavailable" "❌ Unavailable").
Proof.
  apply (stats_after_failed_health (Scene.app Sample.gateway)
                                   Sample.unexpected_token).
  right. exists Sample.response_502. split; reflexivity.
Defined.

(** X20. Given a [healthStatus] that is no object ([null] as before the
    first answer, or a body that is a number, a string, an array), the
    quick stats throw nothing and show their defaults: "Unknown" under the
    class "status undefined", disconnected, 0, unavailable. *)
Theorem stats_without_object (healthStatus : JsValue) :
  (forall props, healthStatus <> JObject props) ->
  Dashboard.stats healthStatus =
  Normal (Dashboard.mkStats "status undefined" (JString "Unknown")
                            "disconnected" "❌ Disconnected"
                            (JNumber Zero)
                            "unavailable" "❌ Unavailable").
Proof.
  intros Hobject.
  destruct healthStatus; try reflexivity. now elim (Hobject props).
Qed.

Lemma stats_without_object_witness :
  Dashboard.stats (App.healthStatus App.initial) =
  Normal (Dashboard.mkStats "status undefined" (JString "Unknown")
                            "disconnected" "❌ Disconnected"
                            (JNumber Zero)
                            "unavailable" "❌ Unavailable").
Proof.
  apply (stats_without_object (App.healthStatus App.initial)).
  discriminate.
Defined.

(* ===================================================================== *)
(** * HealthStatus.jsx: what the code shows                               *)
(* ===================================================================== *)

(** X21. [checkDatabaseStatus] always ends normally with [loading] false
    and with [dbStatus] what getDatabaseStatus returned, fallback
    included; its own catch block never runs: the world is left as
    getDatabaseStatus left it. *)
Theorem database_check_stores_result (b : Ui.Browser HealthStatus.State) :
  exists status,
    fst (getDatabaseStatus [] (Ui.outside b)) = Normal status /\
    HealthStatus.checkDatabaseStatus b =
    (Normal tt,
     Ui.mkBrowser (HealthStatus.mkState status false)
                  (Ui.alerts b)
                  (snd (getDatabaseStatus [] (Ui.outside b)))).
Proof.
  eexists. split.
  - apply (result_of_call GetDatabaseStatus [] _ Scene.database_test
                          eq_refl).
  - apply checkDatabaseStatus_run.
Qed.

(** X22. After a database check that met a transport fault the database
    section shows the test as failed (class "value disconnected"), the
    manager type as "Unknown", no list of tables, and its button enabled
    again. *)
Theorem database_section_after_fault (b : Ui.Browser HealthStatus.State)
                                     (e : Fault) :
  transport (Ui.outside b) GetDatabaseStatus [] = Some (Rejected e) \/
  (exists r,
     transport (Ui.outside b) GetDatabaseStatus [] = Some (Resolved r) /\
     resp_json r = inl e) ->
  let s := Ui.state (snd (HealthStatus.checkDatabaseStatus b)) in
  HealthStatus.test_button s = (false, "🔬 Test Database") /\
  HealthStatus.connection_block s =
    Normal (Some ("value disconnected", "❌ Failed", JString "Unknown")) /\
  HealthStatus.tables_guard s = false.
Proof.
  intros Hfault.
  apply (answer_fault GetDatabaseStatus [] _ Scene.database_test _ eq_refl) in Hfault.
  rewrite checkDatabaseStatus_run.
  rewrite (settle_fault GetDatabaseStatus _ e Hfault). now repeat split.
Qed.

Lemma database_section_after_fault_witness :
  let s := Ui.state (snd (HealthStatus.checkDatabaseStatus
                            (Scene.health_panel Sample.offline))) in
  HealthStatus.test_button s = (false, "🔬 Test Database") /\
  HealthStatus.connection_block s =
    Normal (Some ("value disconnected", "❌ Failed", JString "Unknown")) /\
  HealthStatus.tables_guard s = false.
Proof.
  apply (database_section_after_fault (Scene.health_panel Sample.offline)
                                      Sample.failed_to_fetch).
  left. reflexivity.
Defined.

(** X23.  Evaluating the block of the connection test (lines 75 to 89)
    throws nothing, whatever is kept in [dbStatus]: the two properties
    that it reads with a plain dot are read only where [dbStatus] is
    truthy, and the block is there exactly then.  (What React makes of
    the values it is handed is not part of this.) *)
Theorem connection_block_never_throws (s : HealthStatus.State) :
  exists block,
    HealthStatus.connection_block s = Normal block /\
    match block with
    | Some _ => true
    | None => false
    end = ToBoolean (HealthStatus.dbStatus s).
Proof.
  unfold HealthStatus.connection_block.
  destruct (ToBoolean (HealthStatus.dbStatus s)) eqn:Htruthy.
  - assert (nullish (HealthStatus.dbStatus s) = false) as Hnull
      by (destruct (HealthStatus.dbStatus s); (discriminate || reflexivity)).
    rewrite !(get_present _ _ Hnull). cbn [and_then].
    destruct (ToBoolean (get_optional _ "connection_test"));
      eexists; split; reflexivity.
  - eexists. split; reflexivity.
Qed.
